(** * ATS Resume Analyzer PRO: the core of [app.py], embedded in Rocq

    The development follows the source file top to bottom:
    - [PyStr]: Python strings (sequences of code points), [strip], slicing,
      decimal rendering of integers;
    - [PyFloat]: the binary64 quotient of two integers and its fixed-point
      formatting ([f"{x:.1f}"]);
    - [Json]: the values and the decoder of [json.loads];
    - [Pdf]: [extract_text_from_pdf] and [get_file_stats], with the module's
      global namespace, the three PDF libraries and the file system explicit;
    - [Ai]: the prompt table and the response handling of [analyze_with_ai];
    - [History]: the statistics computed by [main] and [render_sidebar]. *)

From Stdlib Require Import ZArith NArith String Ascii List Lia.
From stdpp Require Import base list strings gmap.

#[local] Set Warnings "-register-all".
Local Open Scope N_scope.

(** ** Python strings *)

Module PyStr.

(** A Python [str] is a sequence of Unicode code points.  [len] is [length],
    [s[:n]] is [take n s] and [+] is [++]. *)
Abbreviation pystr := (list N).

(** Literals are written as Rocq strings holding the UTF-8 encoding of the
    source text; [py] decodes them into code points. *)
Fixpoint utf8_decode (bs : list N) : pystr :=
  match bs with
  | [] => []
  | b :: t =>
    if b <? 128 then b :: utf8_decode t
    else if b <? 224 then
      match t with
      | c1 :: t1 => ((b - 192) * 64 + (c1 - 128)) :: utf8_decode t1
      | [] => [b]
      end
    else if b <? 240 then
      match t with
      | c1 :: c2 :: t2 =>
          ((b - 224) * 4096 + (c1 - 128) * 64 + (c2 - 128)) :: utf8_decode t2
      | _ => [b]
      end
    else
      match t with
      | c1 :: c2 :: c3 :: t3 =>
          ((b - 240) * 262144 + (c1 - 128) * 4096 + (c2 - 128) * 64 + (c3 - 128))
            :: utf8_decode t3
      | _ => [b]
      end
  end.

Definition py (s : string) : pystr :=
  utf8_decode (map N_of_ascii (list_ascii_of_string s)).

(** The newline character, as a string. *)
Definition nl : pystr := [10].

(** [str.isspace] on one code point (the characters [str.strip()] removes). *)
Definition isspace (c : N) : bool :=
  ((9 <=? c) && (c <=? 13)) || ((28 <=? c) && (c <=? 32))
  || (c =? 133) || (c =? 160) || (c =? 5760)
  || ((8192 <=? c) && (c <=? 8202))
  || (c =? 8232) || (c =? 8233) || (c =? 8239) || (c =? 8287) || (c =? 12288).

Fixpoint lstrip (s : pystr) : pystr :=
  match s with
  | [] => []
  | c :: t => if isspace c then lstrip t else s
  end.

Definition rstrip (s : pystr) : pystr := reverse (lstrip (reverse s)).

Definition strip (s : pystr) : pystr := rstrip (lstrip s).

(** The number of characters of [s] that are not whitespace. *)
Definition nonws_count (s : pystr) : nat :=
  length (filter (fun c => isspace c = false) s).

(** [str(n)] for a non-negative integer. *)
Fixpoint digits_fuel (fuel : nat) (n : N) (acc : pystr) : pystr :=
  match fuel with
  | O => acc
  | S f =>
    let acc' := (48 + n mod 10) :: acc in
    if n <? 10 then acc' else digits_fuel f (n / 10) acc'
  end.

Definition str_N (n : N) : pystr := digits_fuel (S (N.to_nat (N.log2 n))) n [].

Definition str_nat (n : nat) : pystr := str_N (N.of_nat n).

Definition str_Z (z : Z) : pystr :=
  match z with
  | Zneg p => 45 :: str_N (Npos p)
  | _ => str_N (Z.to_N z)
  end.

(** Truthiness of a string: [if s:] holds for non-empty strings. *)
Definition truthy (s : pystr) : bool :=
  match s with [] => false | _ => true end.

End PyStr.
Export PyStr.

(** ** Python floats, as far as the program uses them *)

Module PyFloat.

Local Open Scope Z_scope.

(** A finite binary64 number [mant * 2^expo]; [mant] is [0] or satisfies
    [2^52 <= |mant| < 2^53].  The exponent range of binary64 is not modelled:
    the quotients computed here (a byte count over [2^20], a sum of scores
    over a count) are far from overflow and underflow. *)
Record float := { mant : Z; expo : Z }.

(** The integer nearest to [num / den], ties to the even one
    ([0 <= num], [0 < den]). *)
Definition round_half_even (num den : Z) : Z :=
  let q := num / den in
  let r := num mod den in
  if 2 * r <? den then q
  else if 2 * r =? den then (if Z.even q then q else q + 1)
  else q + 1.

(** [a / (b * 2^e)] as a fraction of integers. *)
Definition scaled (a b e : Z) : Z * Z :=
  if e <? 0 then (a * 2 ^ (- e), b) else (a, b * 2 ^ e).

Definition truediv_pos (a b : Z) : float :=
  let e0 := Z.log2 a - Z.log2 b - 52 in
  let e := if fst (scaled a b e0) / snd (scaled a b e0) <? 2 ^ 52
           then e0 - 1 else e0 in
  let m := round_half_even (fst (scaled a b e)) (snd (scaled a b e)) in
  if m =? 2 ^ 53 then {| mant := 2 ^ 52; expo := e + 1 |}
  else {| mant := m; expo := e |}.

(** The correctly rounded quotient of two integers, [b] not zero. *)
Definition quotient (a b : Z) : float :=
  if a =? 0 then {| mant := 0; expo := 0 |}
  else
    let f := truediv_pos (Z.abs a) (Z.abs b) in
    {| mant := Z.sgn a * Z.sgn b * mant f; expo := expo f |}.

(** [a / b] on Python integers; [None] stands for [ZeroDivisionError]. *)
Definition truediv (a b : Z) : option float :=
  if b =? 0 then None else Some (quotient a b).

(** [x > 0] on a float. *)
Definition positive (x : float) : bool := 0 <? mant x.

(** The digits of [n], left-padded with zeros to [d] places. *)
Definition zero_pad (d : nat) (n : Z) : pystr :=
  let ds := str_Z n in
  replicate (d - length ds) 48%N ++ ds.

(** [format(x, ".<d>f")]: the decimal with [d] fractional digits nearest to
    the exact value of [x], ties to even. *)
Definition format_fixed (d : nat) (x : float) : pystr :=
  let scale := 10 ^ Z.of_nat d in
  let m := Z.abs (mant x) in
  let n := if expo x <? 0
           then round_half_even (m * scale) (2 ^ (- expo x))
           else m * 2 ^ expo x * scale in
  (if mant x <? 0 then [45%N] else [])
  ++ str_Z (n / scale)
  ++ match d with O => [] | _ => 46%N :: zero_pad d (n mod scale) end.

End PyFloat.

(** ** JSON values and [json.loads] *)

Module Json.

(** What [json.loads] builds: [None], [bool], [int], [float], [str], [list]
    and [dict].  A float is kept as the text of its literal ([NaN],
    [Infinity] and [-Infinity] included); a [dict] keeps its insertion
    order. *)
Inductive json : Type :=
| JNull
| JBool (b : bool)
| JInt (z : Z)
| JFloat (lexeme : pystr)
| JStr (s : pystr)
| JArr (items : list json)
| JObj (members : list (pystr * json)).

(** [d[k] = v] on an insertion-ordered dict. *)
Fixpoint dict_set (k : pystr) (v : json) (d : list (pystr * json)) : list (pystr * json) :=
  match d with
  | [] => [(k, v)]
  | (k', v') :: rest =>
    if decide (k' = k) then (k', v) :: rest else (k', v') :: dict_set k v rest
  end.

(** [dict(pairs)]. *)
Definition dict_of_pairs (pairs : list (pystr * json)) : list (pystr * json) :=
  foldl (fun d kv => dict_set kv.1 kv.2 d) [] pairs.

(** [d.get(k)]. *)
Fixpoint dict_lookup (k : pystr) (d : list (pystr * json)) : option json :=
  match d with
  | [] => None
  | (k', v) :: rest => if decide (k' = k) then Some v else dict_lookup k rest
  end.

(** [d.get(k, default)]. *)
Definition dict_get (k : pystr) (default : json) (d : list (pystr * json)) : json :=
  match dict_lookup k d with Some v => v | None => default end.

(** *** The decoder *)

Definition is_ws (c : N) : bool := (c =? 32) || (c =? 9) || (c =? 10) || (c =? 13).

Fixpoint skip_ws (s : pystr) : pystr :=
  match s with
  | [] => []
  | c :: t => if is_ws c then skip_ws t else s
  end.

Definition is_digit (c : N) : bool := (48 <=? c) && (c <=? 57).

Definition hex_val (c : N) : option N :=
  if is_digit c then Some (c - 48)
  else if (97 <=? c) && (c <=? 102) then Some (c - 87)
  else if (65 <=? c) && (c <=? 70) then Some (c - 55)
  else None.

Definition hex4 (a b c d : N) : option N :=
  match hex_val a, hex_val b, hex_val c, hex_val d with
  | Some x, Some y, Some z, Some w => Some (x * 4096 + y * 256 + z * 16 + w)
  | _, _, _, _ => None
  end.

(** The character an escape letter stands for. *)
Definition backslash (e : N) : option N :=
  if e =? 34 then Some 34
  else if e =? 92 then Some 92
  else if e =? 47 then Some 47
  else if e =? 98 then Some 8
  else if e =? 102 then Some 12
  else if e =? 110 then Some 10
  else if e =? 114 then Some 13
  else if e =? 116 then Some 9
  else None.

Definition is_high_surrogate (u : N) : bool := (55296 <=? u) && (u <=? 56319).
Definition is_low_surrogate (u : N) : bool := (56320 <=? u) && (u <=? 57343).

(** [scanstring] in strict mode, started after the opening quote: the decoded
    string and the input left after the closing quote. *)
Fixpoint scanstring (s : pystr) : option (pystr * pystr) :=
  match s with
  | [] => None
  | c :: t =>
    if c =? 34 then Some ([], t)
    else if c =? 92 then
      match t with
      | [] => None
      | e :: t1 =>
        if e =? 117 then
          match t1 with
          | h1 :: h2 :: h3 :: h4 :: t2 =>
            match hex4 h1 h2 h3 h4 with
            | None => None
            | Some uni =>
              let single :=
                match scanstring t2 with
                | Some (str, r) => Some (uni :: str, r)
                | None => None
                end in
              if is_high_surrogate uni then
                match t2 with
                | 92 :: 117 :: t3 =>
                  match t3 with
                  | g1 :: g2 :: g3 :: g4 :: t4 =>
                    match hex4 g1 g2 g3 g4 with
                    | None => None
                    | Some uni2 =>
                      if is_low_surrogate uni2 then
                        match scanstring t4 with
                        | Some (str, r) =>
                          Some ((65536 + ((uni - 55296) * 1024 + (uni2 - 56320))) :: str, r)
                        | None => None
                        end
                      else single
                    end
                  | _ => None
                  end
                | _ => single
                end
              else single
            end
          | _ => None
          end
        else
          match backslash e with
          | None => None
          | Some ch =>
            match scanstring t1 with
            | Some (str, r) => Some (ch :: str, r)
            | None => None
            end
          end
      end
    else if c <? 32 then None
    else
      match scanstring t with
      | Some (str, r) => Some (c :: str, r)
      | None => None
      end
  end.

(** The longest prefix of digits and the rest. *)
Fixpoint span_digits (s : pystr) : pystr * pystr :=
  match s with
  | [] => ([], [])
  | c :: t =>
    if is_digit c then (c :: (span_digits t).1, (span_digits t).2) else ([], s)
  end.

Definition int_of_digits (ds : pystr) : Z :=
  foldl (fun acc c => (acc * 10 + Z.of_N (c - 48))%Z) 0%Z ds.

(** The integer part of a number: a single 0, or a digit from 1 to 9
    followed by digits. *)
Definition scan_intpart (s : pystr) : option (pystr * pystr) :=
  match s with
  | [] => None
  | c :: t =>
    if c =? 48 then Some ([48], t)
    else if is_digit c then Some (span_digits s)
    else None
  end.

(** The optional fraction: a dot followed by at least one digit. *)
Definition scan_frac (s : pystr) : pystr * pystr :=
  match s with
  | c :: t =>
    if c =? 46 then
      match (span_digits t).1 with
      | [] => ([], s)
      | ds => (c :: ds, (span_digits t).2)
      end
    else ([], s)
  | [] => ([], s)
  end.

(** The optional sign of an exponent. *)
Definition scan_sign (s : pystr) : pystr :=
  match s with
  | c :: _ => if (c =? 45) || (c =? 43) then [c] else []
  | [] => []
  end.

(** The optional exponent: e or E, an optional sign, at least one digit. *)
Definition scan_exp (s : pystr) : pystr * pystr :=
  match s with
  | e :: t =>
    if (e =? 101) || (e =? 69) then
      let sign := scan_sign t in
      let t' := drop (length sign) t in
      match (span_digits t').1 with
      | [] => ([], s)
      | ds => (e :: sign ++ ds, (span_digits t').2)
      end
    else ([], s)
  | [] => ([], s)
  end.

(** The optional minus sign of a number. *)
Definition scan_minus (s : pystr) : pystr :=
  match s with
  | c :: _ => if c =? 45 then [c] else []
  | [] => []
  end.

(** A number at the head of [s]: an [int] when there is neither fraction
    nor exponent, else a [float]. *)
Definition scan_number (s : pystr) : option (json * pystr) :=
  let sign := scan_minus s in
  match scan_intpart (drop (length sign) s) with
  | None => None
  | Some (ip, r1) =>
    match scan_frac r1 with
    | (frac, r2) =>
      match scan_exp r2 with
      | (ex, r3) =>
        match frac ++ ex with
        | [] =>
          Some (JInt (match sign with
                      | [] => int_of_digits ip
                      | _ => - int_of_digits ip
                      end)%Z, r3)
        | _ => Some (JFloat (sign ++ ip ++ frac ++ ex), r3)
        end
      end
    end
  end.

(** [s] starts with the literal [lit]: the rest of [s]. *)
Fixpoint strip_prefix (lit s : pystr) : option pystr :=
  match lit, s with
  | [], _ => Some s
  | a :: lit', b :: s' => if a =? b then strip_prefix lit' s' else None
  | _ :: _, [] => None
  end.

Definition scan_literal (s : pystr) : option (json * pystr) :=
  match strip_prefix (py "null") s with
  | Some r => Some (JNull, r)
  | None =>
  match strip_prefix (py "true") s with
  | Some r => Some (JBool true, r)
  | None =>
  match strip_prefix (py "false") s with
  | Some r => Some (JBool false, r)
  | None =>
  match scan_number s with
  | Some res => Some res
  | None =>
  match strip_prefix (py "NaN") s with
  | Some r => Some (JFloat (py "NaN"), r)
  | None =>
  match strip_prefix (py "Infinity") s with
  | Some r => Some (JFloat (py "Infinity"), r)
  | None =>
  match strip_prefix (py "-Infinity") s with
  | Some r => Some (JFloat (py "-Infinity"), r)
  | None => None
  end end end end end end end.

(** [scan_once], [JSONObject] and [JSONArray].  [fuel] bounds the number of
    nested and successive values; more than twice the length of the input
    is enough (lemma [scan_fuel]).  The recursion limit of the interpreter
    is not modelled.
    [scan_members] starts after the opening quote of a key, [scan_items] at
    an item; they return the pairs, resp. the items, in order. *)
Fixpoint scan_once (fuel : nat) (s : pystr) : option (json * pystr) :=
  match fuel with
  | O => None
  | S f =>
    match s with
    | [] => None
    | c :: t =>
      if c =? 34 then
        match scanstring t with
        | Some (str, r) => Some (JStr str, r)
        | None => None
        end
      else if c =? 123 then
        match skip_ws t with
        | [] => None
        | c1 :: r =>
          if c1 =? 125 then Some (JObj [], r)
          else if c1 =? 34 then
            match scan_members f r with
            | Some (pairs, r') => Some (JObj (dict_of_pairs pairs), r')
            | None => None
            end
          else None
        end
      else if c =? 91 then
        match skip_ws t with
        | [] => None
        | c1 :: r =>
          if c1 =? 93 then Some (JArr [], r)
          else
            match scan_items f (c1 :: r) with
            | Some (items, r') => Some (JArr items, r')
            | None => None
            end
        end
      else scan_literal s
    end
  end
with scan_members (fuel : nat) (s : pystr) : option (list (pystr * json) * pystr) :=
  match fuel with
  | O => None
  | S f =>
    match scanstring s with
    | None => None
    | Some (key, r0) =>
      match skip_ws r0 with
      | [] => None
      | c :: r1 =>
        if c =? 58 then
          match scan_once f (skip_ws r1) with
          | None => None
          | Some (value, r2) =>
            match skip_ws r2 with
            | [] => None
            | c2 :: r3 =>
              if c2 =? 125 then Some ([(key, value)], r3)
              else if c2 =? 44 then
                match skip_ws r3 with
                | [] => None
                | c4 :: r4 =>
                  if c4 =? 34 then
                    match scan_members f r4 with
                    | Some (pairs, r5) => Some ((key, value) :: pairs, r5)
                    | None => None
                    end
                  else None
                end
              else None
            end
          end
        else None
      end
    end
  end
with scan_items (fuel : nat) (s : pystr) : option (list json * pystr) :=
  match fuel with
  | O => None
  | S f =>
    match scan_once f s with
    | None => None
    | Some (value, r0) =>
      match skip_ws r0 with
      | [] => None
      | c :: r1 =>
        if c =? 93 then Some ([value], r1)
        else if c =? 44 then
          match scan_items f (skip_ws r1) with
          | Some (items, r2) => Some (value :: items, r2)
          | None => None
          end
        else None
      end
    end
  end.

(** [json.loads(s)] for a [str]: [None] stands for [JSONDecodeError].
    Leading and trailing whitespace is allowed, anything else after the
    value is "Extra data", a leading byte-order mark is refused. *)
Definition json_loads (s : pystr) : option json :=
  match s with
  | 65279 :: _ => None
  | _ =>
    match scan_once (2 * S (length s)) (skip_ws s) with
    | Some (v, r) => match skip_ws r with [] => Some v | _ => None end
    | None => None
    end
  end.

(** *** The encoder [json.dumps], with its default arguments *)

Definition hex_digit (d : N) : N := if d <? 10 then 48 + d else 87 + d.

(** The escape [\uXXXX] of a code unit below [65536]. *)
Definition escape_u (u : N) : pystr :=
  [92; 117; hex_digit (u / 4096); hex_digit ((u / 256) mod 16);
   hex_digit ((u / 16) mod 16); hex_digit (u mod 16)].

(** One character of a string under [ensure_ascii]: printable ASCII stays,
    the quote, the backslash and the usual control characters get their
    two-character escape, the rest is written with [\u], in two code units
    above the basic plane. *)
Definition escape_char (c : N) : pystr :=
  if c =? 34 then [92; 34]
  else if c =? 92 then [92; 92]
  else if c =? 10 then [92; 110]
  else if c =? 13 then [92; 114]
  else if c =? 9 then [92; 116]
  else if c =? 12 then [92; 102]
  else if c =? 8 then [92; 98]
  else if (32 <=? c) && (c <=? 126) then [c]
  else if c <? 65536 then escape_u c
  else escape_u (55296 + (c - 65536) / 1024) ++ escape_u (56320 + (c - 65536) mod 1024).

Definition encode_string (s : pystr) : pystr :=
  34 :: concat (map escape_char s) ++ [34].

(** The texts [ts] separated by a comma and a space. *)
Fixpoint comma_join (ts : list pystr) : pystr :=
  match ts with
  | [] => []
  | [t] => t
  | t :: rest => t ++ [44; 32] ++ comma_join rest
  end.

Fixpoint json_dumps (v : json) : pystr :=
  match v with
  | JNull => py "null"
  | JBool true => py "true"
  | JBool false => py "false"
  | JInt z => str_Z z
  | JFloat lexeme => lexeme
  | JStr s => encode_string s
  | JArr items => 91 :: comma_join (map json_dumps items) ++ [93]
  | JObj members =>
    123 :: comma_join (map (fun kv => encode_string kv.1 ++ [58; 32] ++ json_dumps kv.2) members)
        ++ [125]
  end.

(** *** Values that [json.dumps] and [json.loads] carry back and forth *)

(** A character of a Python [str] that is not a surrogate code point. *)
Definition scalar_char (c : N) : bool :=
  (c <? 55296) || ((57343 <? c) && (c <? 1114112)).

Definition scalar_string (s : pystr) : bool := forallb scalar_char s.

(** No key occurs twice. *)
Fixpoint distinct_keys (d : list (pystr * json)) : bool :=
  match d with
  | [] => true
  | (k, _) :: rest =>
    negb (bool_decide (k ∈ map fst rest)) && distinct_keys rest
  end.

(** Values built from [None], booleans, integers, strings of scalar
    characters, lists and dicts whose keys are such strings: the values of
    the JSON skeleton in the ATS prompt. *)
Fixpoint well_formed (v : json) : bool :=
  match v with
  | JNull | JBool _ | JInt _ => true
  | JFloat _ => false
  | JStr s => scalar_string s
  | JArr items => forallb well_formed items
  | JObj members =>
    forallb (fun kv => scalar_string kv.1 && well_formed kv.2) members
    && distinct_keys members
  end.

(** Fuel that decoding the text of a value takes at most. *)
Fixpoint weight (v : json) : nat :=
  match v with
  | JArr items => S (list_sum (map (fun x => S (weight x)) items))
  | JObj members => S (list_sum (map (fun kv => S (weight kv.2)) members))
  | _ => 1
  end.

(** *** Notions for the round trip through the encoder and the decoder *)

(** The text of one member of a dict. *)
Abbreviation member_text :=
  (fun kv : pystr * json => encode_string kv.1 ++ [58; 32] ++ json_dumps kv.2).

(** The text after a value inside a list or a dict, or at the end. *)
Definition stops (rest : pystr) : Prop :=
  match rest with
  | [] => True
  | c :: _ => c = 44 \/ c = 93 \/ c = 125
  end.

(** What the digits of [n] are: decimal digits, not starting with a zero
    unless [n] is zero, and denoting [n]. *)
Definition decimal_of (n : N) (ds : pystr) : Prop :=
  Forall (fun c => is_digit c = true) ds
  /\ int_of_digits ds = Z.of_N n
  /\ exists c t, ds = c :: t /\ (n <> 0 -> c <> 48).

(** Decoding the text of [v] followed by [rest] yields [v] and [rest],
    given enough fuel. *)
Definition reads_back (v : json) : Prop :=
  well_formed v = true ->
  forall (fuel : nat) (rest : pystr),
    stops rest -> (weight v <= fuel)%nat ->
    scan_once fuel (json_dumps v ++ rest) = Some (v, rest).

End Json.

(** ** Exceptions and results of calls that may raise *)

Module Py.

Inductive exn : Type :=
| NameError (name : pystr)
| KeyError (key : pystr)
| OSError (msg : pystr)
| LibraryError (msg : pystr).

(** [str(e)]. *)
Definition str_exn (e : exn) : pystr :=
  match e with
  | NameError n => py "name '" ++ n ++ py "' is not defined"
  | KeyError k => py "'" ++ k ++ py "'"
  | OSError m => m
  | LibraryError m => m
  end.

Inductive outcome (A : Type) : Type :=
| Returns (a : A)
| Raises (e : exn).
Arguments Returns {A} a.
Arguments Raises {A} e.

(** The names bound in the module when its functions run: the imports of
    lines 7 to 26 and the module's own definitions. *)
Definition module_globals : list string :=
  [ "st"; "os"; "tempfile"; "json"; "datetime"; "base64"; "io"; "time";
    "Groq"; "go"; "px"; "pd"; "Image";
    "get_groq_client"; "AVAILABLE_MODELS"; "extract_text_from_pdf";
    "get_file_stats"; "analyze_with_ai"; "create_gauge_chart";
    "create_radar_chart"; "create_bar_chart"; "render_header";
    "render_sidebar"; "main" ]%string.

(** Evaluating a global name in the namespace [G]. *)
Definition resolve (G : list string) (n : string) : outcome unit :=
  if bool_decide (n ∈ G) then Returns () else Raises (NameError (py n)).

End Py.

(** ** PDF processing: [extract_text_from_pdf] and [get_file_stats] *)

Module Pdf.
Import Py PyFloat.

(** The upload: [uploaded_file.name] and [uploaded_file.getvalue()]. *)
Record UploadedFile := { name : pystr; getvalue : list N }.

(** What the PDF libraries answer.  A table is its list of rows. *)
Definition table := list (list (option pystr)).

Record plumber_page := {
  extract_text : outcome (option pystr);
  extract_tables : outcome (list table) }.

Record fitz_page := { get_text : outcome pystr }.

Record reader_page := { reader_extract_text : outcome (option pystr) }.

Record PdfLibs := {
  pdfplumber_open : list N -> outcome (list plumber_page);
  fitz_open : list N -> outcome (list fitz_page);
  PdfReader : list N -> outcome (list reader_page) }.

(** The file system: the contents of every existing path. *)
Abbreviation files := (gmap (list N) (list N)).

(** What the operating system answers to the three file operations. *)
Record OS := {
  NamedTemporaryFile : outcome pystr;
  write_error : option exn;
  unlink_error : option exn }.

(** Opening a path with a library function that takes the file's bytes. *)
Definition open_path {A} (f : list N -> outcome A) (fs : files) (path : pystr) : outcome A :=
  match fs !! path with
  | Some bytes => f bytes
  | None => Raises (OSError (py "No such file or directory"))
  end.

(** Method 1, first loop: [text += page_text + "\n\n"] for each page with text. *)
Fixpoint plumber_texts (pages : list plumber_page) (text : pystr) : pystr * outcome unit :=
  match pages with
  | [] => (text, Returns ())
  | p :: ps =>
    match extract_text p with
    | Raises e => (text, Raises e)
    | Returns None => plumber_texts ps text
    | Returns (Some page_text) =>
      if truthy page_text
      then plumber_texts ps (text ++ page_text ++ nl ++ nl)
      else plumber_texts ps text
    end
  end.

Definition table_truthy (t : table) : bool :=
  match t with [] => false | _ => true end.

(** Method 1, second loop: [tables_found], page numbers counted from [i]. *)
Fixpoint plumber_tables (i : nat) (pages : list plumber_page) (tables_found : list pystr)
  : outcome (list pystr) :=
  match pages with
  | [] => Returns tables_found
  | p :: ps =>
    match extract_tables p with
    | Raises e => Raises e
    | Returns tables =>
      plumber_tables (S i) ps
        (tables_found ++
           map (fun t => py "Table on page " ++ str_nat (i + 1) ++ py ": "
                           ++ str_nat (length t) ++ py " rows")
               (filter (fun t => table_truthy t = true) tables))
    end
  end.

(** The body of the first [try]: the text so far and how the body ended. *)
Definition method1 (G : list string) (L : PdfLibs) (fs : files) (tmp_path text : pystr)
  : pystr * outcome unit :=
  match resolve G "pdfplumber" with
  | Raises e => (text, Raises e)
  | Returns _ =>
    match open_path (pdfplumber_open L) fs tmp_path with
    | Raises e => (text, Raises e)
    | Returns pages =>
      match plumber_texts pages text with
      | (text1, Raises e) => (text1, Raises e)
      | (text1, Returns _) =>
        match plumber_tables 0 pages [] with
        | Raises e => (text1, Raises e)
        | Returns [] => (text1, Returns ())
        | Returns tables_found =>
          (text1 ++ nl ++ nl ++ py "[Detected " ++ str_nat (length tables_found)
             ++ py " tables in resume]" ++ nl, Returns ())
        end
      end
    end
  end.

Fixpoint fitz_texts (doc : list fitz_page) (text : pystr) : pystr * outcome unit :=
  match doc with
  | [] => (text, Returns ())
  | p :: ps =>
    match get_text p with
    | Raises e => (text, Raises e)
    | Returns t => fitz_texts ps (text ++ t)
    end
  end.

(** The body of the second [try]. *)
Definition method2 (G : list string) (L : PdfLibs) (fs : files) (tmp_path text : pystr)
  : pystr * outcome unit :=
  match resolve G "fitz" with
  | Raises e => (text, Raises e)
  | Returns _ =>
    match open_path (fitz_open L) fs tmp_path with
    | Raises e => (text, Raises e)
    | Returns doc => fitz_texts doc text
    end
  end.

Fixpoint reader_texts (pages : list reader_page) (text : pystr) : pystr * outcome unit :=
  match pages with
  | [] => (text, Returns ())
  | p :: ps =>
    match reader_extract_text p with
    | Raises e => (text, Raises e)
    | Returns None => reader_texts ps text
    | Returns (Some page_text) =>
      if truthy page_text
      then reader_texts ps (text ++ page_text ++ nl ++ nl)
      else reader_texts ps text
    end
  end.

(** The body of the third [try]; [uploaded_file.seek(0)] changes nothing
    that [getvalue] shows. *)
Definition method3 (G : list string) (L : PdfLibs) (uploaded_file : UploadedFile) (text : pystr)
  : pystr * outcome unit :=
  match resolve G "PyPDF2" with
  | Raises e => (text, Raises e)
  | Returns _ =>
    match PdfReader L (getvalue uploaded_file) with
    | Raises e => (text, Raises e)
    | Returns pages => reader_texts pages text
    end
  end.

(** The guard of methods 2 and 3: [len(text.strip()) < 100]. *)
Definition not_enough_text (text : pystr) : bool :=
  (length (strip text) <? 100)%nat.

(** One run of the three methods: the text after each of them, whether
    methods 2 and 3 were entered, and how each entered body ended (every
    [Raises] is swallowed by the bare [except]). *)
Record cascade_run := {
  text1 : pystr;  ended1 : outcome unit;
  attempted2 : bool;  text2 : pystr;  ended2 : option (outcome unit);
  attempted3 : bool;  text3 : pystr;  ended3 : option (outcome unit) }.

Definition cascade (G : list string) (L : PdfLibs) (fs : files)
    (tmp_path : pystr) (uploaded_file : UploadedFile) : cascade_run :=
  let r1 := method1 G L fs tmp_path [] in
  let a2 := not_enough_text r1.1 in
  let r2 := if a2 then method2 G L fs tmp_path r1.1 else (r1.1, Returns ()) in
  let a3 := not_enough_text r2.1 in
  let r3 := if a3 then method3 G L uploaded_file r2.1 else (r2.1, Returns ()) in
  {| text1 := r1.1; ended1 := r1.2;
     attempted2 := a2; text2 := r2.1; ended2 := if a2 then Some r2.2 else None;
     attempted3 := a3; text3 := r3.1; ended3 := if a3 then Some r3.2 else None |}.

Definition no_text_warning : pystr :=
  py "⚠️ Could not extract text. Please ensure PDF has selectable text (not scanned image).".

Definition extraction_error (e : exn) : pystr :=
  py "Error extracting PDF: " ++ str_exn e.

(** [extract_text_from_pdf] in the namespace [G]: the returned string and
    the file system it leaves. *)
Definition extract_text_from_pdf_in (G : list string) (L : PdfLibs) (os : OS)
    (uploaded_file : UploadedFile) (fs : files) : pystr * files :=
  match NamedTemporaryFile os with
  | Raises e => (extraction_error e, fs)
  | Returns tmp_path =>
    let created := <[tmp_path := []]> fs in
    match write_error os with
    | Some e => (extraction_error e, created)
    | None =>
      let staged := <[tmp_path := getvalue uploaded_file]> created in
      let text := text3 (cascade G L staged tmp_path uploaded_file) in
      match unlink_error os with
      | Some e => (extraction_error e, staged)
      | None =>
        (if (50 <? length (strip text))%nat then take 5000 text else no_text_warning,
         delete tmp_path staged)
      end
    end
  end.

(** The function as the module defines it. *)
Definition extract_text_from_pdf := extract_text_from_pdf_in module_globals.

(** [get_file_stats]. *)
Record stats := { filename : pystr; size_mb : float; pages : nat }.

Definition page_count_in (G : list string) (L : PdfLibs) (bytes : list N) : nat :=
  let fallback :=
    match resolve G "fitz" with
    | Raises _ => 0%nat
    | Returns _ =>
      match fitz_open L bytes with
      | Raises _ => 0%nat
      | Returns doc => length doc
      end
    end in
  match resolve G "pdfplumber" with
  | Raises _ => fallback
  | Returns _ =>
    match pdfplumber_open L bytes with
    | Raises _ => fallback
    | Returns pdf_pages => length pdf_pages
    end
  end.

Definition get_file_stats_in (G : list string) (L : PdfLibs) (uploaded_file : UploadedFile) : stats :=
  {| filename := name uploaded_file;
     size_mb := quotient (Z.of_nat (length (getvalue uploaded_file))) (1024 * 1024);
     pages := page_count_in G L (getvalue uploaded_file) |}.

Definition get_file_stats := get_file_stats_in module_globals.

End Pdf.

(** ** AI analysis: the prompt table and [analyze_with_ai] *)

Module Ai.
Import Py Json.

(** Lines joined by newlines, as a triple-quoted literal lays them out. *)
Fixpoint unlines (ls : list pystr) : pystr :=
  match ls with
  | [] => []
  | [l] => l
  | l :: rest => l ++ nl ++ unlines rest
  end.

(** A literal in which the apostrophe stands for the double quote of the
    source text (the JSON skeleton of the ATS prompt holds no apostrophe). *)
Definition tq (s : string) : pystr :=
  map (fun c => if c =? 39 then 34 else c) (py s).

Definition detailed_system : pystr :=
  unlines [
    py "You are an expert HR Director with 20+ years experience in tech recruitment.";
    py "            You analyze resumes against job descriptions with exceptional detail and accuracy.";
    py "            Always provide actionable, specific feedback." ].

Definition detailed_user (job_desc resume_text : pystr) : pystr :=
  unlines [
    py "# COMPREHENSIVE RESUME ANALYSIS REPORT";
    [];
    py "## JOB DESCRIPTION ANALYSIS:";
    take 2000 job_desc;
    [];
    py "## RESUME CONTENT:";
    take 2000 resume_text;
    [];
    py "## PLEASE PROVIDE:";
    [];
    py "### 1. 🎯 EXECUTIVE SUMMARY";
    py "- Overall Match Score: [0-100]%";
    py "- One-line verdict";
    py "- Confidence level: High/Medium/Low";
    [];
    py "### 2. 📊 QUANTITATIVE ASSESSMENT";
    py "**Skills Match:**";
    py "- Technical Skills Alignment: [X/10]";
    py "- Soft Skills Match: [X/10]";
    py "- Tools & Technologies: [X/10]";
    [];
    py "**Experience Evaluation:**";
    py "- Years of Relevant Experience: [X] vs Required: [Y]";
    py "- Role Relevance: [X/10]";
    py "- Industry Experience: [X/10]";
    [];
    py "### 3. ✅ STRENGTHS IDENTIFIED";
    py "[List 5-7 specific strengths with examples from resume]";
    [];
    py "### 4. ⚠️ AREAS FOR IMPROVEMENT";
    py "[List 5-7 specific gaps with actionable solutions]";
    [];
    py "### 5. 🔑 KEYWORD ANALYSIS";
    py "- Top 10 Matching Keywords: [list]";
    py "- Top 10 Missing Keywords: [list]";
    py "- Keyword Density Score: [X/10]";
    [];
    py "### 6. 📈 ATS OPTIMIZATION SCORE: [0-100]";
    py "- Formatting: [X/10]";
    py "- Readability: [X/10]";
    py "- ATS Compliance: [X/10]";
    [];
    py "### 7. 🎯 HIRING PROBABILITY PREDICTION";
    py "- Pass ATS Screening: Yes/No/Maybe";
    py "- Likelihood of Interview: High/Medium/Low";
    py "- Estimated Shortlist Time: Immediate/1-3 days/1 week+";
    [];
    py "### 8. 💡 ACTIONABLE RECOMMENDATIONS";
    py "[Top 5 specific actions to improve resume]";
    [];
    py "### 9. 📝 COVER LETTER TIPS";
    py "[3 key points to highlight in cover letter]";
    [];
    py "### 10. 🎯 FINAL VERDICT & NEXT STEPS";
    [];
    py "Format with emojis, bold headings, and clear bullet points." ].

Definition ats_score_system : pystr :=
  unlines [
    py "You are an ATS (Applicant Tracking System) algorithm expert.";
    py "            You analyze resumes strictly like an ATS would.";
    py "            Be objective, numerical, and data-driven." ].

Definition ats_score_user (job_desc resume_text : pystr) : pystr :=
  unlines [
    py "Generate ONLY a JSON response for ATS analysis:";
    [];
    py "JOB DESCRIPTION:";
    take 1000 job_desc;
    [];
    py "RESUME CONTENT:";
    take 1000 resume_text;
    [];
    py "Return this EXACT JSON structure:";
    py "{";
    tq "    'overall_score': 0-100,";
    tq "    'breakdown': {";
    tq "        'keyword_match': 0-100,";
    tq "        'experience_match': 0-100,";
    tq "        'skills_match': 0-100,";
    tq "        'education_match': 0-100,";
    tq "        'formatting': 0-100,";
    tq "        'readability': 0-100";
    py "    },";
    tq "    'prediction': {";
    tq "        'pass_ats': true/false,";
    tq "        'interview_probability': 'High/Medium/Low',";
    tq "        'shortlist_time': 'Immediate/1-3 days/1 week+'";
    py "    },";
    tq "    'keywords': {";
    tq "        'matched': ['keyword1', 'keyword2', 'keyword3', 'keyword4', 'keyword5'],";
    tq "        'missing': ['keyword1', 'keyword2', 'keyword3', 'keyword4', 'keyword5'],";
    tq "        'suggested': ['keyword1', 'keyword2', 'keyword3']";
    py "    },";
    tq "    'improvements': [";
    tq "        'Improvement 1',";
    tq "        'Improvement 2', ";
    tq "        'Improvement 3',";
    tq "        'Improvement 4',";
    tq "        'Improvement 5'";
    py "    ],";
    tq "    'ats_optimization_tips': [";
    tq "        'Tip 1',";
    tq "        'Tip 2',";
    tq "        'Tip 3'";
    py "    ]";
    py "}" ].

Definition cover_letter_system : pystr :=
  unlines [
    py "You are a professional cover letter writer specializing in tech roles.";
    py "            Write compelling, personalized cover letters that get interviews." ].

Definition cover_letter_user (job_desc resume_text : pystr) : pystr :=
  unlines [
    py "Write a professional cover letter based on:";
    [];
    py "JOB DESCRIPTION:";
    job_desc;
    [];
    py "RESUME CONTENT:";
    take 1500 resume_text;
    [];
    py "Format:";
    py "1. Professional header with date and contact info";
    py "2. Appropriate salutation";
    py "3. Strong opening paragraph showing enthusiasm";
    py "4. 2-3 body paragraphs matching skills to job requirements";
    py "5. Specific examples from resume";
    py "6. Closing paragraph expressing interest";
    py "7. Professional sign-off";
    [];
    py "Make it:";
    py "- Specific to this job";
    py "- Confident but not arrogant";
    py "- 250-350 words";
    py "- Professional tone" ].

Record prompt := { system : pystr; user : pystr }.

(** The dict [analysis_prompts]; its three f-strings are evaluated on every
    call. *)
Definition analysis_prompts (job_desc resume_text : pystr) : list (pystr * prompt) :=
  [ (py "detailed",
      {| system := detailed_system; user := detailed_user job_desc resume_text |});
    (py "ats_score",
      {| system := ats_score_system; user := ats_score_user job_desc resume_text |});
    (py "cover_letter",
      {| system := cover_letter_system; user := cover_letter_user job_desc resume_text |}) ].

(** [analysis_prompts[analysis_type]]. *)
Fixpoint prompt_lookup (key : pystr) (table : list (pystr * prompt)) : outcome prompt :=
  match table with
  | [] => Raises (KeyError key)
  | (k, p) :: rest => if decide (k = key) then Returns p else prompt_lookup key rest
  end.

(** The request sent to [client.chat.completions.create]; the two decimal
    parameters are kept as the text of their literals. *)
Record request := {
  model : pystr;
  messages : list (pystr * pystr);
  temperature : pystr;
  max_tokens : Z;
  top_p : Z }.

Definition chat_request (model_id : pystr) (p : prompt) : request :=
  {| model := model_id;
     messages := [ (py "system", system p); (py "user", user p) ];
     temperature := py "0.7";
     max_tokens := 2048;
     top_p := 1 |}.

(** The client: the [content] of the first choice, or the exception of the
    call. *)
Definition Client := request -> outcome pystr.

(** *** The pattern [\{.*\}] with [re.DOTALL] *)

(** A match of [.*\}] at the head of [s], the star taking as much as it
    can and giving back one character at a time. *)
Fixpoint dotstar_close (s : pystr) : option pystr :=
  match s with
  | [] => None
  | c :: t =>
    match dotstar_close t with
    | Some m => Some (c :: m)
    | None => if c =? 125 then Some [c] else None
    end
  end.

(** [re.search(r'\{.*\}', s, re.DOTALL)]: the text of the leftmost match. *)
Fixpoint re_search (s : pystr) : option pystr :=
  match s with
  | [] => None
  | c :: t =>
    if c =? 123 then
      match dotstar_close t with
      | Some m => Some (c :: m)
      | None => re_search t
      end
    else re_search t
  end.

(** *** The result of an analysis *)

(** What [analyze_with_ai] returns: [None], the model's text, or the decoded
    JSON value. *)
Inductive result : Type :=
| NoResult
| Text (raw : pystr)
| Parsed (value : json).

(** Messages shown through [st.warning] and [st.error].  The decoder's own
    message after "Could not parse JSON: " is not modelled. *)
Inductive notice : Type :=
| StWarning (msg : pystr)
| StError (msg : pystr).

(** The handling of the model's text, lines 391 to 405. *)
Definition interpret (analysis_type raw : pystr) : result * list notice :=
  if decide (analysis_type = py "ats_score") then
    match re_search raw with
    | Some span =>
      match json_loads span with
      | Some parsed => (Parsed parsed, [])
      | None => (Text raw, [StWarning (py "Could not parse JSON: ")])
      end
    | None => (Text raw, [])
    end
  else (Text raw, []).

Definition analysis_error (e : exn) : notice :=
  StError (py "AI Analysis Error: " ++ str_exn e).

Definition analyze_with_ai (client : Client) (model_id job_desc resume_text analysis_type : pystr)
  : result * list notice :=
  match prompt_lookup analysis_type (analysis_prompts job_desc resume_text) with
  | Raises e => (NoResult, [analysis_error e])
  | Returns p =>
    match client (chat_request model_id p) with
    | Raises e => (NoResult, [analysis_error e])
    | Returns raw => interpret analysis_type raw
    end
  end.

(** *** The locator the specification describes *)

(** The balanced span that starts at the head of [s], which is just after
    an opening brace at depth [depth]: the characters up to the brace that
    closes depth 0. *)
Fixpoint balanced_from (depth : nat) (s : pystr) : option pystr :=
  match s with
  | [] => None
  | c :: t =>
    if c =? 125 then
      match depth with
      | O => Some [c]
      | S d => option_map (cons c) (balanced_from d t)
      end
    else if c =? 123 then option_map (cons c) (balanced_from (S depth) t)
    else option_map (cons c) (balanced_from depth t)
  end.

(** "The first balanced top-level brace-delimited substring", following the
    words of the specification and not the source. *)
Fixpoint spec_first_balanced_span (s : pystr) : option pystr :=
  match s with
  | [] => None
  | c :: t =>
    if c =? 123 then
      match balanced_from 0 t with
      | Some m => Some (c :: m)
      | None => spec_first_balanced_span t
      end
    else spec_first_balanced_span t
  end.

(** The score invariant of the specification on a decoded payload: the
    overall score and the six sub-scores, where present, are integers
    between 0 and 100. *)
Definition score_in_range (v : json) : bool :=
  match v with
  | JInt z => (0 <=? z)%Z && (z <=? 100)%Z
  | _ => false
  end.

Definition breakdown_keys : list pystr :=
  [ py "keyword_match"; py "experience_match"; py "skills_match";
    py "education_match"; py "formatting"; py "readability" ].

Definition field_in_range (k : pystr) (d : list (pystr * json)) : bool :=
  match dict_lookup k d with
  | Some v => score_in_range v
  | None => true
  end.

Definition scores_in_range (payload : json) : bool :=
  match payload with
  | JObj d =>
    field_in_range (py "overall_score") d
    && match dict_lookup (py "breakdown") d with
       | Some (JObj b) => forallb (fun k => field_in_range k b) breakdown_keys
       | Some _ => false
       | None => true
       end
  | _ => false
  end.

(** The structure the ATS prompt asks the model for (lines 312 to 344), as
    a typed record, and the dict it stands for. *)
Record structured_score := {
  overall_score : Z;
  keyword_match : Z;
  experience_match : Z;
  skills_match : Z;
  education_match : Z;
  formatting : Z;
  readability : Z;
  pass_ats : bool;
  interview_probability : pystr;
  shortlist_time : pystr;
  matched : list pystr;
  missing : list pystr;
  suggested : list pystr;
  improvements : list pystr;
  ats_optimization_tips : list pystr }.

Definition strings (l : list pystr) : json := JArr (map JStr l).

Definition score_dict (s : structured_score) : list (pystr * json) :=
  [ (py "overall_score", JInt (overall_score s));
    (py "breakdown",
      JObj [ (py "keyword_match", JInt (keyword_match s));
             (py "experience_match", JInt (experience_match s));
             (py "skills_match", JInt (skills_match s));
             (py "education_match", JInt (education_match s));
             (py "formatting", JInt (formatting s));
             (py "readability", JInt (readability s)) ]);
    (py "prediction",
      JObj [ (py "pass_ats", JBool (pass_ats s));
             (py "interview_probability", JStr (interview_probability s));
             (py "shortlist_time", JStr (shortlist_time s)) ]);
    (py "keywords",
      JObj [ (py "matched", strings (matched s));
             (py "missing", strings (missing s));
             (py "suggested", strings (suggested s)) ]);
    (py "improvements", strings (improvements s));
    (py "ats_optimization_tips", strings (ats_optimization_tips s)) ].

(** Every string of the record is made of scalar characters. *)
Definition scalar_score (s : structured_score) : bool :=
  scalar_string (interview_probability s) && scalar_string (shortlist_time s)
  && forallb scalar_string (matched s) && forallb scalar_string (missing s)
  && forallb scalar_string (suggested s) && forallb scalar_string (improvements s)
  && forallb scalar_string (ats_optimization_tips s).

End Ai.

(** ** The analysis history and its statistics *)

Module History.
Import Py PyFloat Json Ai.

(** One entry of [st.session_state.analysis_history]; [score] is the
    optional key ["score"]. *)
Record analysis := {
  type : pystr;
  model_name : pystr;
  timestamp : pystr;
  file_name : pystr;
  job_desc_preview : pystr;
  result_of : result;
  score : option json }.

(** [isinstance(result, dict)]. *)
Definition as_dict (r : result) : option (list (pystr * json)) :=
  match r with
  | Parsed (JObj d) => Some d
  | _ => None
  end.

(** The key ["score"] that [main] sets, lines 878 and 879. *)
Definition score_key (analysis_type : pystr) (r : result) : option json :=
  if decide (analysis_type = py "ats_score") then
    match as_dict r with
    | Some d => Some (dict_get (py "overall_score") (JInt 0) d)
    | None => None
    end
  else None.

(** The entry [main] builds after an analysis, lines 869 to 880. *)
Definition analysis_data (analysis_type selected_model_name now uploaded_name job_desc : pystr)
    (r : result) : analysis :=
  {| type := analysis_type;
     model_name := selected_model_name;
     timestamp := now;
     file_name := uploaded_name;
     job_desc_preview := take 100 job_desc ++ py "...";
     result_of := r;
     score := score_key analysis_type r |}.

(** An entry whose ["score"] key is the one [main] would have set. *)
Definition recorded (a : analysis) : Prop :=
  score a = score_key (type a) (result_of a).

(** The list [scores] of the Visualize tab, lines 1120 to 1127. *)
Fixpoint ats_scores (history : list analysis) : list json :=
  match history with
  | [] => []
  | a :: rest =>
    if decide (type a = py "ats_score") then
      match as_dict (result_of a) with
      | Some d => dict_get (py "overall_score") (JInt 0) d :: ats_scores rest
      | None => ats_scores rest
      end
    else ats_scores rest
  end.

(** The scores as Python integers; the statistics are modelled for integer
    scores only ([None] otherwise). *)
Fixpoint int_scores (scores : list json) : option (list Z) :=
  match scores with
  | [] => Some []
  | JInt z :: rest => option_map (cons z) (int_scores rest)
  | _ :: _ => None
  end.

Definition sum (l : list Z) : Z := foldl Z.add 0%Z l.

(** [max] and [min] of a list with head [x]. *)
Definition maximum (x : Z) (l : list Z) : Z := foldl Z.max x l.
Definition minimum (x : Z) (l : list Z) : Z := foldl Z.min x l.

(** The four metrics of the Visualize tab and the text they are shown as. *)
Record score_stats := {
  avg_score : float;
  max_score : Z;
  min_score : Z;
  total : nat }.

Definition visualize_stats (history : list analysis) : option score_stats :=
  match int_scores (ats_scores history) with
  | Some (x :: rest) =>
    Some {| avg_score := quotient (sum (x :: rest)) (Z.of_nat (length (x :: rest)));
            max_score := maximum x rest;
            min_score := minimum x rest;
            total := length (x :: rest) |}
  | _ => None
  end.

(** [f"{avg_score:.1f}%"] and [f"{max_score}%"]. *)
Definition percent_1f (x : float) : pystr := format_fixed 1 x ++ py "%".

(** The values [a.get('score', 0)] of the entries that have a score. *)
Fixpoint sidebar_scores (history : list analysis) : list json :=
  match history with
  | [] => []
  | a :: rest =>
    match score a with
    | Some s => s :: sidebar_scores rest
    | None => sidebar_scores rest
    end
  end.

(** "Avg Score" of the sidebar, lines 586 to 594: the sum of the scores
    over [max(1, total_analyses)]; [None] when the history is empty or a
    score is not an integer. *)
Definition sidebar_avg_score (history : list analysis) : option float :=
  match history with
  | [] => None
  | _ =>
    match int_scores (sidebar_scores history) with
    | Some ints =>
      Some (quotient (sum ints) (Z.max 1 (Z.of_nat (length history))))
    | None => None
    end
  end.

End History.

(** ** Scenarios used by the examples below *)

Module Scenario.
Import Py PyFloat Json Pdf Ai History.

(** A two-page resume with selectable text, as each library would read it. *)
Definition jane_doe_page1 : pystr :=
  py "Jane Doe" ++ nl
  ++ py "Python Developer with five years of experience building Django and Flask services".

Definition jane_doe_page2 : pystr :=
  py "Education: BS Computer Science. Skills: Python, SQL, Docker, AWS, Git, pytest.".

Definition jane_doe_pdf : UploadedFile :=
  {| name := py "jane_doe.pdf"; getvalue := py "%PDF-1.4 (two pages of text)" |}.

Definition jane_doe_libs : PdfLibs :=
  {| pdfplumber_open := fun _ =>
       Returns [ {| extract_text := Returns (Some jane_doe_page1); extract_tables := Returns [] |};
                 {| extract_text := Returns (Some jane_doe_page2); extract_tables := Returns [] |} ];
     fitz_open := fun _ =>
       Returns [ {| get_text := Returns jane_doe_page1 |};
                 {| get_text := Returns jane_doe_page2 |} ];
     PdfReader := fun _ =>
       Returns [ {| reader_extract_text := Returns (Some jane_doe_page1) |};
                 {| reader_extract_text := Returns (Some jane_doe_page2) |} ] |}.

Definition tmp_pdf : pystr := py "/tmp/tmpk3x9a1.pdf".

(** An operating system on which every file operation succeeds. *)
Definition quiet_os : OS :=
  {| NamedTemporaryFile := Returns tmp_pdf; write_error := None; unlink_error := None |}.

(** The namespace the module would have with the three PDF libraries
    imported. *)
Definition with_pdf_imports : list string :=
  ("pdfplumber" :: "fitz" :: "PyPDF2" :: module_globals)%string.





(** A reply whose JSON is well formed and whose scores are out of range. *)
Definition over_range_reply : pystr :=
  tq "Here is the result: {'overall_score': 150, 'breakdown': {'keyword_match': 250}}".

Definition over_range_payload : json :=
  JObj [ (py "overall_score", JInt 150);
         (py "breakdown", JObj [ (py "keyword_match", JInt 250) ]) ].

(** The payload of the scenario of the specification, which is partial. *)
Definition score_72 : list (pystr * json) :=
  [ (py "overall_score", JInt 72);
    (py "breakdown", JObj [ (py "keyword_match", JInt 80) ]) ].

(** A complete structured score. *)
Definition full_score : structured_score :=
  {| overall_score := 72;
     keyword_match := 80; experience_match := 75; skills_match := 70;
     education_match := 90; formatting := 60; readability := 65;
     pass_ats := true;
     interview_probability := py "Medium";
     shortlist_time := py "1-3 days";
     matched := [py "Python"; py "Django"; py "REST"];
     missing := [py "Docker"; py "AWS"];
     suggested := [py "CI/CD"];
     improvements := [py "Quantify results — e.g. “reduced latency by 40%”"];
     ats_optimization_tips := [py "Use standard section headings"] |}.

Definition full_score_text : pystr := json_dumps (JObj (score_dict full_score)).

(** The model's reply around it, as in the scenario of the specification. *)
Definition reply_with_thanks : pystr :=
  py "Here is the result: " ++ full_score_text ++ py " Thanks!".

(** The same payload followed by a remark that holds braces. *)
Definition reply_with_braces : pystr :=
  py "Here is the result: " ++ full_score_text ++ py " (each score is in {0..100})".

(** A reply whose braces do not hold JSON. *)
Definition malformed_reply : pystr := py "Score: {overall_score: 72} out of 100".

(** A client that answers every request with the same text. *)
Definition canned (reply : pystr) : Client := fun _ => Returns reply.

(** An ATS entry of the history with the given overall score. *)
Definition ats_entry (now : pystr) (overall : Z) : analysis :=
  analysis_data (py "ats_score") (py "Llama 3.1 8B") now (py "jane_doe.pdf")
    (py "Python Developer") (Parsed (JObj [ (py "overall_score", JInt overall) ])).

Definition three_scores : list analysis :=
  [ ats_entry (py "2024-05-01 10:00:00") 55;
    ats_entry (py "2024-05-01 10:05:00") 70;
    ats_entry (py "2024-05-01 10:10:00") 90 ].

(** The same history after a cover letter was generated as well. *)
Definition three_scores_and_a_letter : list analysis :=
  three_scores ++
  [ analysis_data (py "cover_letter") (py "Llama 3.1 8B") (py "2024-05-01 10:15:00")
      (py "jane_doe.pdf") (py "Python Developer") (Text (py "Dear Hiring Manager")) ].

End Scenario.

(** ** The page: [main], its helpers and the charts *)

Module Main.
Import Py PyFloat Json Pdf Ai History.

(** [needle in hay] on strings. *)
Fixpoint starts_with (needle hay : pystr) : bool :=
  match needle, hay with
  | [], _ => true
  | a :: needle', b :: hay' => (a =? b) && starts_with needle' hay'
  | _ :: _, [] => false
  end.

Fixpoint contains (needle hay : pystr) : bool :=
  starts_with needle hay
  || match hay with
     | [] => false
     | _ :: hay' => contains needle hay'
     end.

(** [st.session_state], lines 119 to 126. *)
Record session := {
  analysis_history : list analysis;
  current_analysis : option analysis;
  api_key : pystr;
  resume_text : pystr }.

Definition initial_session : session :=
  {| analysis_history := []; current_analysis := None; api_key := []; resume_text := [] |}.

(** What the page shows besides the notices of [analyze_with_ai]. *)
Inductive message : Type :=
| Shown (n : notice)
| StSuccess (msg : pystr)
| StInfo (msg : pystr).

(** [get_groq_client], lines 129 to 135; [Groq] is the constructor of the
    client, which may raise. *)
Definition get_groq_client (Groq : pystr -> outcome Client) (key : pystr)
  : option Client * list message :=
  match Groq (strip key) with
  | Returns client => (Some client, [])
  | Raises e => (None, [Shown (StError (py "Error creating Groq client: " ++ str_exn e))])
  end.

(** The metrics of the Upload tab, lines 709 to 713. *)
Definition file_size_label (st : stats) : pystr :=
  format_fixed 2 (size_mb st) ++ py " MB".

Definition pages_label (st : stats) : pystr :=
  if (0 <? pages st)%nat then str_nat (pages st) else py "N/A".

(** The Upload tab on an uploaded file, lines 715 to 718: the text is
    extracted and cached in the session. *)
Definition upload_tab (G : list string) (L : PdfLibs) (os : OS) (uploaded_file : UploadedFile)
    (fs : files) (s : session) : session * files :=
  let extracted := extract_text_from_pdf_in G L os uploaded_file fs in
  ({| analysis_history := analysis_history s;
      current_analysis := current_analysis s;
      api_key := api_key s;
      resume_text := extracted.1 |},
   extracted.2).

(** The preview of the Upload tab, lines 721 to 725. *)
Inductive preview : Type :=
| PreviewWarning (msg : pystr)
| PreviewText (shown : pystr).

Definition preview_of (text : pystr) : preview :=
  if contains (py "⚠️") text || contains (py "Error") text
  then PreviewWarning text
  else PreviewText (take 1500 text ++ py "...").

(** The resume text the Analyze tab uses, lines 859 to 862. *)
Definition analysis_resume_text (G : list string) (L : PdfLibs) (os : OS)
    (uploaded_file : UploadedFile) (fs : files) (s : session) : pystr * files :=
  if truthy (resume_text s) then (resume_text s, fs)
  else extract_text_from_pdf_in G L os uploaded_file fs.

(** [if result:] on what [analyze_with_ai] returns.  A parsed value is
    always a dict there, since the decoded text opens with a brace; the
    other kinds follow the truth value of Python, except that a float
    lexeme, whose truth value would need its numeric value, counts as
    true. *)
Definition result_truthy (r : result) : bool :=
  match r with
  | NoResult => false
  | Text raw => truthy raw
  | Parsed (JObj []) | Parsed (JArr []) | Parsed (JStr []) | Parsed JNull => false
  | Parsed (JBool b) => b
  | Parsed (JInt z) => negb (z =? 0)%Z
  | Parsed _ => true
  end.

(** Storing a result, lines 867 to 882; [now] is the formatted time. *)
Definition record_analysis (analysis_type selected_model_name now job_desc : pystr)
    (uploaded_file : UploadedFile) (r : result) (s : session) : session :=
  if result_truthy r then
    let data := analysis_data analysis_type selected_model_name now
                  (name uploaded_file) job_desc r in
    {| analysis_history := analysis_history s ++ [data];
       current_analysis := Some data;
       api_key := api_key s;
       resume_text := resume_text s |}
  else s.

(** One click on an analysis button, lines 849 to 892. *)
Definition run_analysis (G : list string) (L : PdfLibs) (os : OS)
    (Groq : pystr -> outcome Client) (key selected_model_name model_key now job_desc : pystr)
    (uploaded_file : UploadedFile) (analysis_type : pystr) (fs : files) (s : session)
  : session * files * list message :=
  match get_groq_client Groq key with
  | (None, shown) =>
    (s, fs, shown ++ [Shown (StError (py "Failed to create Groq client. Check API key."))])
  | (Some client, shown) =>
    let text := analysis_resume_text G L os uploaded_file fs s in
    let analysed := analyze_with_ai client model_key job_desc text.1 analysis_type in
    (record_analysis analysis_type selected_model_name now job_desc uploaded_file analysed.1 s,
     text.2,
     shown ++ map Shown analysed.2
       ++ (if result_truthy analysed.1 then [StSuccess (py "✅ Analysis complete!")] else []))
  end.

(** "Load This Analysis", lines 1199 to 1201. *)
Definition load_analysis (a : analysis) (s : session) : session :=
  {| analysis_history := analysis_history s;
     current_analysis := Some a;
     api_key := api_key s;
     resume_text := resume_text s |}.

(** "Delete This Analysis", lines 1203 to 1208: the first entry with the
    timestamp of the entry clicked is popped. *)
Fixpoint pop_timestamp (ts : pystr) (history : list analysis) : list analysis :=
  match history with
  | [] => []
  | a :: rest => if decide (timestamp a = ts) then rest else a :: pop_timestamp ts rest
  end.

Definition delete_analysis (clicked : analysis) (s : session) : session :=
  {| analysis_history := pop_timestamp (timestamp clicked) (analysis_history s);
     current_analysis := current_analysis s;
     api_key := api_key s;
     resume_text := resume_text s |}.

(** The label of an entry in the History tab, line 1179: entries are listed
    newest first, [idx] counting from 0. *)
Definition history_number (history : list analysis) (idx : nat) : nat :=
  length history - idx.

(** The data frame of [create_bar_chart], lines 488 to 491: the columns
    "Keywords" and "Count". *)
Definition bar_chart_frame {A} (keywords : list A) : list A * list Z :=
  (take 10 keywords, replicate (min 10 (length keywords)) 1%Z).

(** The trace of [create_radar_chart], lines 449 to 454: [r] and [theta],
    each closed by its first element; [None] stands for the [IndexError] of
    [values[0]] on an empty dict. *)
Definition radar_trace (scores_dict : list (pystr * json)) : option (list json * list pystr) :=
  let categories := map fst scores_dict in
  let values := map snd scores_dict in
  match values, categories with
  | v :: _, c :: _ => Some (values ++ [v], categories ++ [c])
  | _, _ => None
  end.

End Main.

(** * Properties *)

Import Py PyFloat Json Pdf Ai History Scenario.

(** ** Strings *)

Example py_ascii : py "{a}" = [123; 97; 125].
Proof. reflexivity. Qed.

Example py_warning_sign : take 2 no_text_warning = [9888; 65039].
Proof. vm_compute. reflexivity. Qed.

Example strip_example : strip (py "  a b ") = py "a b".
Proof. vm_compute. reflexivity. Qed.






(** ** The PDF functions *)

Section Extraction.

Variable L : PdfLibs.
Variable uploaded_file : UploadedFile.

Lemma resolve_pdfplumber : resolve module_globals "pdfplumber" = Raises (NameError (py "pdfplumber")).
Proof. vm_compute. reflexivity. Qed.

Lemma resolve_fitz : resolve module_globals "fitz" = Raises (NameError (py "fitz")).
Proof. vm_compute. reflexivity. Qed.

Lemma resolve_PyPDF2 : resolve module_globals "PyPDF2" = Raises (NameError (py "PyPDF2")).
Proof. vm_compute. reflexivity. Qed.

Lemma method1_module fs tmp_path text :
  method1 module_globals L fs tmp_path text = (text, Raises (NameError (py "pdfplumber"))).
Proof. unfold method1. by rewrite resolve_pdfplumber. Qed.

Lemma method2_module fs tmp_path text :
  method2 module_globals L fs tmp_path text = (text, Raises (NameError (py "fitz"))).
Proof. unfold method2. by rewrite resolve_fitz. Qed.

Lemma method3_module text :
  method3 module_globals L uploaded_file text = (text, Raises (NameError (py "PyPDF2"))).
Proof. unfold method3. by rewrite resolve_PyPDF2. Qed.

(** The run of the three methods in the module as it is written. *)
Lemma cascade_module fs tmp_path :
  cascade module_globals L fs tmp_path uploaded_file =
  {| text1 := []; ended1 := Raises (NameError (py "pdfplumber"));
     attempted2 := true; text2 := []; ended2 := Some (Raises (NameError (py "fitz")));
     attempted3 := true; text3 := []; ended3 := Some (Raises (NameError (py "PyPDF2"))) |}.
Proof.
  unfold cascade. rewrite method1_module. cbn [fst snd].
  change (not_enough_text []) with true. cbn iota.
  rewrite method2_module. cbn [fst snd].
  change (not_enough_text []) with true. cbn iota.
  rewrite method3_module. reflexivity.
Qed.



End Extraction.

Lemma not_imported (n : string) :
  bool_decide (n ∈ module_globals) = false -> n ∉ module_globals.
Proof. intros H. by apply bool_decide_eq_false in H. Qed.

(** In the module as written both page-count strategies fail on their
    first name, for every upload. *)
Lemma get_file_stats_pages (L : PdfLibs) (uploaded_file : UploadedFile) :
  pages (get_file_stats L uploaded_file) = 0%nat.
Proof.
  unfold get_file_stats, get_file_stats_in, page_count_in. cbn [pages].
  by rewrite resolve_pdfplumber, resolve_fitz.
Qed.

(** Whenever the upload was staged and [os.unlink] does not raise, the
    temporary file is gone on return: in any namespace and whatever the
    libraries do, since every method swallows its own failure. *)
Lemma staged_file_deleted (G : list string) (L : PdfLibs) (uploaded_file : UploadedFile)
    (fs : files) (tmp_path : pystr) :
  (extract_text_from_pdf_in G L
     {| NamedTemporaryFile := Returns tmp_path; write_error := None; unlink_error := None |}
     uploaded_file fs).2 !! tmp_path = None.
Proof.
  unfold extract_text_from_pdf_in. simpl. apply lookup_delete_eq.
Qed.

(** C1 (the code departs from the claim): the two-page resume of the
    scenario has well over 50 non-whitespace characters, yet
    [extract_text_from_pdf] answers with the warning, because none of the
    three library names is bound.  The same function in a namespace that
    imports them returns the text of the two pages, cut at 5000
    characters. *)
Theorem extract_text_jane_doe_warning :
  (50 <= nonws_count (jane_doe_page1 ++ jane_doe_page2))%nat
  /\ (extract_text_from_pdf jane_doe_libs quiet_os jane_doe_pdf ∅).1 = no_text_warning
  /\ (extract_text_from_pdf_in with_pdf_imports jane_doe_libs quiet_os jane_doe_pdf ∅).1
     = take 5000 (jane_doe_page1 ++ nl ++ nl ++ jane_doe_page2 ++ nl ++ nl).
Proof.
  split; [vm_compute; lia|].
  split; vm_compute; reflexivity.
Qed.

(** C2: for every upload, every behaviour of the libraries and of the
    operating system, [extract_text_from_pdf] returns the warning or an
    error message and never extracted text: [pdfplumber], [fitz] and
    [PyPDF2] are not bound in the module, so each of the three bodies ends
    in a [NameError] that its bare [except] swallows, and the text stays
    empty. *)
Theorem extract_text_never_document_text
    (L : PdfLibs) (os : OS) (uploaded_file : UploadedFile) (fs : files) :
  (("pdfplumber"%string ∉ module_globals)
   /\ ("fitz"%string ∉ module_globals)
   /\ ("PyPDF2"%string ∉ module_globals))
  /\ (forall (staged : files) (tmp_path : pystr),
        let run := cascade module_globals L staged tmp_path uploaded_file in
        ended1 run = Raises (NameError (py "pdfplumber"))
        /\ ended2 run = Some (Raises (NameError (py "fitz")))
        /\ ended3 run = Some (Raises (NameError (py "PyPDF2")))
        /\ text3 run = [])
  /\ ((extract_text_from_pdf L os uploaded_file fs).1 = no_text_warning
      \/ exists e, (extract_text_from_pdf L os uploaded_file fs).1 = extraction_error e).
Proof.
  split; [|split].
  - repeat split; apply not_imported; vm_compute; reflexivity.
  - intros staged tmp_path. rewrite cascade_module. simpl. auto.
  - unfold extract_text_from_pdf, extract_text_from_pdf_in.
    destruct (NamedTemporaryFile os) as [tmp_path|e]; [|right; by exists e].
    destruct (write_error os) as [e|]; [right; by exists e|].
    rewrite cascade_module. simpl.
    destruct (unlink_error os) as [e|]; [right; by exists e|].
    left. reflexivity.
Qed.



(** C7 (the code departs from the claim): for the two-page resume of the
    scenario [get_file_stats] reports a positive size and 0 pages, not 2:
    both page-count strategies end in a [NameError].  The same function in
    a namespace that imports the libraries reports 2 pages. *)
Theorem get_file_stats_jane_doe :
  pages (get_file_stats jane_doe_libs jane_doe_pdf) = 0%nat
  /\ positive (size_mb (get_file_stats jane_doe_libs jane_doe_pdf)) = true
  /\ pages (get_file_stats_in with_pdf_imports jane_doe_libs jane_doe_pdf) = 2%nat.
Proof. repeat split; vm_compute; reflexivity. Qed.

(** C8 (the code departs from the claim): when writing the upload into the
    temporary file raises, the function returns its error message and the
    temporary file it created is still there: [os.unlink] is the last
    statement of the [try] body and is not reached. *)
Theorem failed_staging_leaves_temp_file
    (L : PdfLibs) (uploaded_file : UploadedFile) (fs : files) (tmp_path : pystr) (e : exn) :
  let os := {| NamedTemporaryFile := Returns tmp_path;
               write_error := Some e; unlink_error := None |} in
  (extract_text_from_pdf L os uploaded_file fs).1 = extraction_error e
  /\ is_Some ((extract_text_from_pdf L os uploaded_file fs).2 !! tmp_path).
Proof.
  simpl. unfold extract_text_from_pdf, extract_text_from_pdf_in. simpl.
  split; [reflexivity|]. rewrite lookup_insert_eq. by eexists.
Qed.

(** ** The prompt table *)

Lemma py_neq (a b : string) : bool_decide (py a = py b) = false -> py a <> py b.
Proof. intros H. by apply bool_decide_eq_false in H. Qed.

Lemma prompt_lookup_detailed (job_desc resume_text : pystr) :
  prompt_lookup (py "detailed") (analysis_prompts job_desc resume_text)
  = Returns {| system := detailed_system; user := detailed_user job_desc resume_text |}.
Proof.
  unfold analysis_prompts, prompt_lookup.
  destruct (decide (py "detailed" = py "detailed")); [reflexivity|congruence].
Qed.

Lemma prompt_lookup_ats_score (job_desc resume_text : pystr) :
  prompt_lookup (py "ats_score") (analysis_prompts job_desc resume_text)
  = Returns {| system := ats_score_system; user := ats_score_user job_desc resume_text |}.
Proof.
  unfold analysis_prompts, prompt_lookup.
  destruct (decide (py "detailed" = py "ats_score")) as [E|_].
  { exfalso. revert E. apply py_neq. vm_compute. reflexivity. }
  destruct (decide (py "ats_score" = py "ats_score")); [reflexivity|congruence].
Qed.

Lemma prompt_lookup_cover_letter (job_desc resume_text : pystr) :
  prompt_lookup (py "cover_letter") (analysis_prompts job_desc resume_text)
  = Returns {| system := cover_letter_system; user := cover_letter_user job_desc resume_text |}.
Proof.
  unfold analysis_prompts, prompt_lookup.
  destruct (decide (py "detailed" = py "cover_letter")) as [E|_].
  { exfalso. revert E. apply py_neq. vm_compute. reflexivity. }
  destruct (decide (py "ats_score" = py "cover_letter")) as [E|_].
  { exfalso. revert E. apply py_neq. vm_compute. reflexivity. }
  destruct (decide (py "cover_letter" = py "cover_letter")); [reflexivity|congruence].
Qed.

Lemma unlines_cons (l : pystr) (rest : list pystr) :
  rest <> [] -> unlines (l :: rest) = l ++ nl ++ unlines rest.
Proof. destruct rest; [congruence|reflexivity]. Qed.

(** [unlines] of a template around one interpolated line. *)
Lemma unlines_app_cons (before : list pystr) (l : pystr) (after : list pystr) :
  after <> [] ->
  unlines (before ++ l :: after)
  = concat (map (fun x => x ++ nl) before) ++ l ++ nl ++ unlines after.
Proof.
  intros Hafter. induction before as [|b bs IH].
  - change ([] ++ l :: after) with (l :: after).
    by rewrite unlines_cons.
  - change ((b :: bs) ++ l :: after) with (b :: (bs ++ l :: after)).
    rewrite unlines_cons by (by destruct bs).
    rewrite IH. simpl. by rewrite <- !app_assoc.
Qed.

(** Splits the [unlines] of the goal around the interpolated line [l], which
    is its third or fourth line. *)
Ltac around_line l :=
  lazymatch goal with
  | |- context [unlines (?x1 :: ?x2 :: ?x3 :: l :: ?r)] =>
    change (unlines (x1 :: x2 :: x3 :: l :: r)) with (unlines ([x1; x2; x3] ++ l :: r));
    rewrite (unlines_app_cons [x1; x2; x3] l r) by discriminate
  | |- context [unlines (?x1 :: ?x2 :: l :: ?r)] =>
    change (unlines (x1 :: x2 :: l :: r)) with (unlines ([x1; x2] ++ l :: r));
    rewrite (unlines_app_cons [x1; x2] l r) by discriminate
  end.

(** C6: building the prompts is a function of the mode, the job
    description and the resume text alone: equal inputs give equal
    system/user pairs.  The user prompt of each mode is a fixed text around
    the interpolated copies, which are [job_desc[:2000]] and
    [resume_text[:2000]] for "detailed", [job_desc[:1000]] and
    [resume_text[:1000]] for "ats_score", and the whole [job_desc] and
    [resume_text[:1500]] for "cover_letter"; a copy [s[:n]] has exactly
    [n] characters when [s] has at least [n], and is [s] otherwise. *)
Theorem prompt_building_pure_and_truncated
    (mode mode' job_desc job_desc' resume_text resume_text' : pystr) :
  mode = mode' -> job_desc = job_desc' -> resume_text = resume_text' ->
  prompt_lookup mode (analysis_prompts job_desc resume_text)
  = prompt_lookup mode' (analysis_prompts job_desc' resume_text')
  /\ (exists a b c : pystr, forall jd resume : pystr,
        prompt_lookup (py "detailed") (analysis_prompts jd resume)
        = Returns {| system := detailed_system;
                     user := a ++ take 2000 jd ++ b ++ take 2000 resume ++ c |})
  /\ (exists a b c : pystr, forall jd resume : pystr,
        prompt_lookup (py "ats_score") (analysis_prompts jd resume)
        = Returns {| system := ats_score_system;
                     user := a ++ take 1000 jd ++ b ++ take 1000 resume ++ c |})
  /\ (exists a b c : pystr, forall jd resume : pystr,
        prompt_lookup (py "cover_letter") (analysis_prompts jd resume)
        = Returns {| system := cover_letter_system;
                     user := a ++ jd ++ b ++ take 1500 resume ++ c |})
  /\ (forall (n : nat) (s : pystr),
        ((n <= length s)%nat -> length (take n s) = n)
        /\ ((length s <= n)%nat -> take n s = s)
        /\ take n s `prefix_of` s).
Proof.
  intros -> -> ->. split; [reflexivity|].
  split; [|split; [|split]].
  - eexists _, _, _. intros jd resume. rewrite prompt_lookup_detailed.
    unfold detailed_user. do 2 f_equal.
    around_line (take 2000 jd). around_line (take 2000 resume).
    rewrite (app_assoc nl). reflexivity.
  - eexists _, _, _. intros jd resume. rewrite prompt_lookup_ats_score.
    unfold ats_score_user. do 2 f_equal.
    around_line (take 1000 jd). around_line (take 1000 resume).
    rewrite (app_assoc nl). reflexivity.
  - eexists _, _, _. intros jd resume. rewrite prompt_lookup_cover_letter.
    unfold cover_letter_user. do 2 f_equal.
    around_line jd. around_line (take 1500 resume).
    rewrite (app_assoc nl). reflexivity.
  - intros n s. split; [|split].
    + intros H. rewrite length_take. lia.
    + intros H. by apply take_ge.
    + apply prefix_take.
Qed.

Lemma prompt_building_witness :
  py "ats_score" = py "ats_score"
  /\ prompt_lookup (py "ats_score") (analysis_prompts (py "Python Developer") (py "Jane Doe"))
     = prompt_lookup (py "ats_score") (analysis_prompts (py "Python Developer") (py "Jane Doe")).
Proof.
  split; [reflexivity|].
  apply (prompt_building_pure_and_truncated
           (py "ats_score") (py "ats_score") (py "Python Developer") (py "Python Developer")
           (py "Jane Doe") (py "Jane Doe")); reflexivity.
Defined.

(** ** JSON: the encoder and the decoder *)

(** *** Decimal digits *)

Ltac div_lia := zify; Z.to_euclidean_division_equations; lia.

Lemma digits_fuel_app (fuel : nat) (n : N) (acc : pystr) :
  digits_fuel fuel n acc = digits_fuel fuel n [] ++ acc.
Proof.
  revert n acc. induction fuel as [|f IH]; intros n acc; [reflexivity|].
  simpl. destruct (n <? 10); [reflexivity|].
  rewrite IH, (IH _ [_]), <- app_assoc. reflexivity.
Qed.

Lemma int_of_digits_snoc (ds : pystr) (c : N) :
  int_of_digits (ds ++ [c]) = (int_of_digits ds * 10 + Z.of_N (c - 48))%Z.
Proof. unfold int_of_digits. by rewrite foldl_app. Qed.

Lemma digit_char (d : N) : d < 10 -> is_digit (48 + d) = true.
Proof. intros H. unfold is_digit. apply andb_true_iff. split; apply N.leb_le; lia. Qed.

Lemma digits_fuel_decimal (f : nat) (n : N) :
  n < 10 ^ N.of_nat (S f) -> decimal_of n (digits_fuel (S f) n []).
Proof.
  revert n. induction f as [|f IH]; intros n Hn.
  - change (10 ^ N.of_nat 1) with 10 in Hn.
    simpl. destruct (N.ltb_spec n 10); [|lia].
    rewrite N.mod_small by lia.
    repeat split.
    + constructor; [by apply digit_char|constructor].
    + unfold int_of_digits. simpl. lia.
    + exists (48 + n), []. split; [reflexivity|lia].
  - change (digits_fuel (S (S f)) n []) with
      (let acc' := [48 + n mod 10] in
       if n <? 10 then acc' else digits_fuel (S f) (n / 10) acc').
    cbv zeta. destruct (N.ltb_spec n 10) as [Hlt|Hge].
    + rewrite N.mod_small by lia.
      repeat split.
      * constructor; [by apply digit_char|constructor].
      * unfold int_of_digits. simpl. lia.
      * exists (48 + n), []. split; [reflexivity|lia].
    + rewrite digits_fuel_app.
      assert (Hq : n / 10 < 10 ^ N.of_nat (S f)).
      { rewrite (Nat2N.inj_succ (S f)), N.pow_succ_r' in Hn.
        set (x := 10 ^ N.of_nat (S f)) in *. clearbody x. div_lia. }
      destruct (IH _ Hq) as (Hd & Hv & c & t & Hc & Hz).
      repeat split.
      * apply Forall_app. split; [exact Hd|].
        constructor; [apply digit_char; div_lia|constructor].
      * rewrite int_of_digits_snoc, Hv. div_lia.
      * exists c, (t ++ [48 + n mod 10]). rewrite Hc. split; [reflexivity|].
        intros _. apply Hz. div_lia.
Qed.

Lemma str_N_decimal (n : N) : decimal_of n (str_N n).
Proof.
  unfold str_N. apply digits_fuel_decimal.
  rewrite Nat2N.inj_succ, N2Nat.id.
  destruct (N.eq_dec n 0) as [->|Hn]; [reflexivity|].
  destruct (N.log2_spec n) as [_ H2]; [lia|].
  eapply N.lt_le_trans; [exact H2|].
  apply N.pow_le_mono_l. lia.
Qed.

Lemma span_digits_app (ds rest : pystr) :
  Forall (fun c => is_digit c = true) ds ->
  match rest with [] => True | c :: _ => is_digit c = false end ->
  span_digits (ds ++ rest) = (ds, rest).
Proof.
  intros Hd Hr. induction Hd as [|c t Hc _ IH]; simpl.
  - destruct rest as [|c t]; [reflexivity|]. simpl. by rewrite Hr.
  - by rewrite Hc, IH.
Qed.

(** *** Integers *)

Lemma stops_not_digit (rest : pystr) :
  stops rest -> match rest with [] => True | c :: _ => is_digit c = false end.
Proof. destruct rest as [|c t]; [done|]. by intros [-> | [-> | ->]]. Qed.

Lemma scan_frac_stops (rest : pystr) : stops rest -> scan_frac rest = ([], rest).
Proof. destruct rest as [|c t]; [done|]. by intros [-> | [-> | ->]]. Qed.

Lemma scan_exp_stops (rest : pystr) : stops rest -> scan_exp rest = ([], rest).
Proof. destruct rest as [|c t]; [done|]. by intros [-> | [-> | ->]]. Qed.

Lemma is_digit_range (c : N) : is_digit c = true -> 48 <= c <= 57.
Proof.
  unfold is_digit. intros [H1 H2]%andb_true_iff.
  apply N.leb_le in H1, H2. lia.
Qed.

Lemma scan_intpart_decimal (n : N) (rest : pystr) :
  stops rest -> scan_intpart (str_N n ++ rest) = Some (str_N n, rest).
Proof.
  intros Hr. destruct (N.eq_dec n 0) as [->|Hn]; [reflexivity|].
  destruct (str_N_decimal n) as (Hd & _ & c & t & Hc & Hz).
  pose proof (span_digits_app _ rest Hd (stops_not_digit _ Hr)) as Hspan.
  rewrite Hc in *. specialize (Hz Hn).
  change ((c :: t) ++ rest) with (c :: (t ++ rest)) in *.
  unfold scan_intpart.
  destruct (N.eqb_spec c 48); [congruence|].
  apply Forall_cons in Hd as [Hdc _]. rewrite Hdc. by rewrite Hspan.
Qed.

Lemma scan_number_nat (n : N) (rest : pystr) :
  stops rest -> scan_number (str_N n ++ rest) = Some (JInt (Z.of_N n), rest).
Proof.
  intros Hr. unfold scan_number.
  destruct (str_N_decimal n) as (Hd & Hv & c & t & Hc & _).
  assert (Hminus : scan_minus (str_N n ++ rest) = []).
  { rewrite Hc in Hd |- *. apply Forall_cons in Hd as [Hdc _].
    apply is_digit_range in Hdc.
    simpl. destruct (N.eqb_spec c 45); [lia|reflexivity]. }
  rewrite Hminus.
  change (drop (length (@nil N)) (str_N n ++ rest)) with (str_N n ++ rest).
  rewrite (scan_intpart_decimal n rest Hr), (scan_frac_stops rest Hr), (scan_exp_stops rest Hr).
  simpl. by rewrite Hv.
Qed.

Lemma scan_number_int (z : Z) (rest : pystr) :
  stops rest -> scan_number (str_Z z ++ rest) = Some (JInt z, rest).
Proof.
  intros Hr. destruct z as [|p|p].
  - exact (scan_number_nat 0 rest Hr).
  - exact (scan_number_nat (Npos p) rest Hr).
  - change (str_Z (Z.neg p)) with (45 :: str_N (Npos p)).
    unfold scan_number.
    change (scan_minus ((45 :: str_N (N.pos p)) ++ rest)) with [45].
    change (drop (length [45]) ((45 :: str_N (N.pos p)) ++ rest)) with (str_N (Npos p) ++ rest).
    rewrite (scan_intpart_decimal _ rest Hr), (scan_frac_stops rest Hr), (scan_exp_stops rest Hr).
    destruct (str_N_decimal (Npos p)) as (_ & Hv & _).
    simpl. by rewrite Hv.
Qed.

(** An integer is printed with a digit or a minus sign in front. *)
Lemma str_Z_head (z : Z) :
  exists c t, str_Z z = c :: t /\ (c = 45 \/ 48 <= c <= 57).
Proof.
  destruct z as [|p|p].
  - exists 48, []. split; [reflexivity|lia].
  - destruct (str_N_decimal (Npos p)) as (Hd & _ & c & t & Hc & _).
    exists c, t. split; [exact Hc|]. right.
    change (str_Z (Z.pos p)) with (str_N (Npos p)) in *.
    rewrite Hc in Hd. apply Forall_cons in Hd as [Hdc _]. by apply is_digit_range.
  - exists 45, (str_N (Npos p)). split; [reflexivity|by left].
Qed.

Lemma py_null : py "null" = [110; 117; 108; 108].
Proof. reflexivity. Qed.
Lemma py_true : py "true" = [116; 114; 117; 101].
Proof. reflexivity. Qed.
Lemma py_false : py "false" = [102; 97; 108; 115; 101].
Proof. reflexivity. Qed.

Lemma scan_literal_number (c : N) (t : pystr) (res : json * pystr) :
  c = 45 \/ 48 <= c <= 57 ->
  scan_number (c :: t) = Some res -> scan_literal (c :: t) = Some res.
Proof.
  intros Hc Hnum. unfold scan_literal.
  rewrite py_null, py_true, py_false. cbn [strip_prefix].
  destruct (N.eqb_spec 110 c); [lia|].
  destruct (N.eqb_spec 116 c); [lia|].
  destruct (N.eqb_spec 102 c); [lia|].
  by rewrite Hnum.
Qed.

Lemma scan_once_int (f : nat) (z : Z) (rest : pystr) :
  stops rest -> scan_once (S f) (str_Z z ++ rest) = Some (JInt z, rest).
Proof.
  intros Hr. pose proof (scan_number_int z rest Hr) as Hnum.
  destruct (str_Z_head z) as (c & t & Hz & Hc). rewrite Hz in *.
  change ((c :: t) ++ rest) with (c :: (t ++ rest)) in *.
  cbn [scan_once].
  destruct (N.eqb_spec c 34); [lia|].
  destruct (N.eqb_spec c 123); [lia|].
  destruct (N.eqb_spec c 91); [lia|].
  by apply scan_literal_number.
Qed.

(** *** Strings *)

Lemma hex_val_digit (d : N) : d < 16 -> hex_val (hex_digit d) = Some d.
Proof.
  intros Hd. unfold hex_val, hex_digit, is_digit.
  destruct (N.ltb_spec d 10).
  - destruct (N.leb_spec 48 (48 + d)); [|lia].
    destruct (N.leb_spec (48 + d) 57); [|lia].
    simpl. f_equal. lia.
  - destruct (N.leb_spec 48 (87 + d)); [|lia].
    destruct (N.leb_spec (87 + d) 57); [lia|].
    destruct (N.leb_spec 97 (87 + d)); [|lia].
    destruct (N.leb_spec (87 + d) 102); [|lia].
    simpl. f_equal. lia.
Qed.

Lemma hex4_escape (u : N) :
  u < 65536 ->
  hex4 (hex_digit (u / 4096)) (hex_digit ((u / 256) mod 16))
       (hex_digit ((u / 16) mod 16)) (hex_digit (u mod 16)) = Some u.
Proof.
  intros Hu. unfold hex4.
  rewrite !hex_val_digit by div_lia.
  f_equal. div_lia.
Qed.

Lemma scanstring_escape_u (u : N) (t : pystr) :
  u < 65536 -> is_high_surrogate u = false ->
  scanstring (escape_u u ++ t)
  = match scanstring t with
    | Some (str, r) => Some (u :: str, r)
    | None => None
    end.
Proof.
  intros Hu Hs. unfold escape_u. cbn [app scanstring].
  change (92 =? 34) with false. change (92 =? 92) with true.
  change (117 =? 117) with true. cbn iota.
  by rewrite (hex4_escape u Hu), Hs.
Qed.

Lemma scanstring_escape_pair (hi lo : N) (t : pystr) :
  hi < 65536 -> lo < 65536 ->
  is_high_surrogate hi = true -> is_low_surrogate lo = true ->
  scanstring (escape_u hi ++ escape_u lo ++ t)
  = match scanstring t with
    | Some (str, r) => Some ((65536 + ((hi - 55296) * 1024 + (lo - 56320))) :: str, r)
    | None => None
    end.
Proof.
  intros Hhi Hlo Hh Hl. unfold escape_u. cbn [app scanstring].
  change (92 =? 34) with false. change (92 =? 92) with true.
  change (117 =? 117) with true. cbn iota.
  by rewrite (hex4_escape hi Hhi), Hh, (hex4_escape lo Hlo), Hl.
Qed.

Lemma scalar_char_range (c : N) :
  scalar_char c = true -> c < 55296 \/ (57343 < c /\ c < 1114112).
Proof.
  unfold scalar_char. intros [H | [H1 H2]%andb_true_iff]%orb_true_iff.
  - left. by apply N.ltb_lt.
  - right. split; by apply N.ltb_lt.
Qed.

Lemma not_high_surrogate (c : N) :
  c < 55296 \/ 57343 < c -> is_high_surrogate c = false.
Proof.
  intros H. unfold is_high_surrogate.
  destruct (N.leb_spec 55296 c); destruct (N.leb_spec c 56319); simpl; try reflexivity; lia.
Qed.

(** One escaped character in front of the input is read back as that
    character. *)
Lemma scanstring_escape_char (c : N) (t : pystr) :
  scalar_char c = true ->
  scanstring (escape_char c ++ t)
  = match scanstring t with
    | Some (str, r) => Some (c :: str, r)
    | None => None
    end.
Proof.
  intros Hc%scalar_char_range. unfold escape_char.
  destruct (N.eqb_spec c 34) as [->|?]; [reflexivity|].
  destruct (N.eqb_spec c 92) as [->|?]; [reflexivity|].
  destruct (N.eqb_spec c 10) as [->|?]; [reflexivity|].
  destruct (N.eqb_spec c 13) as [->|?]; [reflexivity|].
  destruct (N.eqb_spec c 9) as [->|?]; [reflexivity|].
  destruct (N.eqb_spec c 12) as [->|?]; [reflexivity|].
  destruct (N.eqb_spec c 8) as [->|?]; [reflexivity|].
  destruct (N.leb_spec 32 c); [destruct (N.leb_spec c 126)|]; cbn [andb].
  - cbn [app scanstring].
    destruct (N.eqb_spec c 34); [lia|]. destruct (N.eqb_spec c 92); [lia|].
    destruct (N.ltb_spec c 32); [lia|reflexivity].
  - destruct (N.ltb_spec c 65536).
    + apply scanstring_escape_u; [assumption|]. apply not_high_surrogate. lia.
    + rewrite <- app_assoc, scanstring_escape_pair.
      * destruct (scanstring t) as [[str r]|]; [|reflexivity].
        do 3 f_equal. div_lia.
      * div_lia.
      * div_lia.
      * unfold is_high_surrogate. apply andb_true_iff. split; apply N.leb_le; div_lia.
      * unfold is_low_surrogate. apply andb_true_iff. split; apply N.leb_le; div_lia.
  - destruct (N.ltb_spec c 65536); [|lia].
    apply scanstring_escape_u; [lia|]. apply not_high_surrogate. lia.
Qed.

(** A string of scalar characters, encoded, is read back as it was. *)
Lemma scanstring_encode (s rest : pystr) :
  scalar_string s = true ->
  scanstring (concat (map escape_char s) ++ 34 :: rest) = Some (s, rest).
Proof.
  unfold scalar_string. induction s as [|c t IH]; intros Hs.
  - reflexivity.
  - simpl in Hs. apply andb_true_iff in Hs as [Hc Ht].
    cbn [map concat]. rewrite <- app_assoc.
    rewrite (scanstring_escape_char c _ Hc), (IH Ht). reflexivity.
Qed.

(** *** Dicts *)

Lemma dict_set_fresh (k : pystr) (v : json) (d : list (pystr * json)) :
  k ∉ map fst d -> dict_set k v d = d ++ [(k, v)].
Proof.
  induction d as [|[k' v'] rest IH]; intros Hk; [reflexivity|].
  simpl in *. apply not_elem_of_cons in Hk as [Hne Hrest].
  destruct (decide (k' = k)); [congruence|]. by rewrite IH.
Qed.

Lemma distinct_keys_cons (k : pystr) (v : json) (rest : list (pystr * json)) :
  distinct_keys ((k, v) :: rest) = true -> (k ∉ map fst rest) /\ distinct_keys rest = true.
Proof.
  simpl. intros [H1 H2]%andb_true_iff. split; [|exact H2].
  apply negb_true_iff, bool_decide_eq_false in H1. exact H1.
Qed.

Lemma foldl_dict_set (acc d : list (pystr * json)) :
  distinct_keys d = true ->
  (forall k, k ∈ map fst d -> k ∉ map fst acc) ->
  foldl (fun d kv => dict_set kv.1 kv.2 d) acc d = acc ++ d.
Proof.
  revert acc. induction d as [|[k v] rest IH]; intros acc Hd Hacc.
  - by rewrite app_nil_r.
  - apply distinct_keys_cons in Hd as [Hk Hrest].
    cbn [foldl fst snd]. rewrite dict_set_fresh.
    + rewrite IH; [by rewrite <- app_assoc | exact Hrest |].
      intros k' Hk'. rewrite map_app. intros [Hin | Hin]%elem_of_app.
      * apply (Hacc k'); [|exact Hin]. simpl. by apply list_elem_of_further.
      * simpl in Hin. apply list_elem_of_singleton in Hin. congruence.
    + apply Hacc. simpl. apply list_elem_of_here.
Qed.

(** [dict(pairs)] of pairs with distinct keys is the list of the pairs. *)
Lemma dict_of_pairs_distinct (d : list (pystr * json)) :
  distinct_keys d = true -> dict_of_pairs d = d.
Proof.
  intros Hd. unfold dict_of_pairs. rewrite foldl_dict_set; [reflexivity|exact Hd|].
  intros k _. simpl. apply not_elem_of_nil.
Qed.

(** *** Values *)

(** Induction on a JSON value, with the property at hand for the items of a
    list and the values of a dict. *)
Lemma json_induction (P : json -> Prop) :
  P JNull -> (forall b, P (JBool b)) -> (forall z, P (JInt z)) ->
  (forall lexeme, P (JFloat lexeme)) -> (forall s, P (JStr s)) ->
  (forall items, Forall P items -> P (JArr items)) ->
  (forall members, Forall (fun kv => P kv.2) members -> P (JObj members)) ->
  forall v, P v.
Proof.
  intros Hnull Hbool Hint Hfloat Hstr Harr Hobj.
  fix IH 1. intros [ | b | z | lexeme | s | items | members].
  - exact Hnull.
  - apply Hbool.
  - apply Hint.
  - apply Hfloat.
  - apply Hstr.
  - apply Harr. induction items as [|x rest IHrest]; constructor.
    + apply IH.
    + exact IHrest.
  - apply Hobj. induction members as [|[k x] rest IHrest]; constructor.
    + apply IH.
    + exact IHrest.
Qed.

Lemma skip_ws_cons (c : N) (t : pystr) : is_ws c = false -> skip_ws (c :: t) = c :: t.
Proof. intros H. simpl. by rewrite H. Qed.

Lemma skip_ws_space (t : pystr) : skip_ws (32 :: t) = skip_ws t.
Proof. reflexivity. Qed.

Lemma not_ws (c : N) : c <> 32 -> c <> 9 -> c <> 10 -> c <> 13 -> is_ws c = false.
Proof.
  intros. unfold is_ws.
  destruct (N.eqb_spec c 32); [lia|]. destruct (N.eqb_spec c 9); [lia|].
  destruct (N.eqb_spec c 10); [lia|]. destruct (N.eqb_spec c 13); [lia|]. reflexivity.
Qed.

(** The text of a value starts with a character that is neither
    whitespace nor a closing bracket. *)
Lemma json_dumps_head (v : json) :
  well_formed v = true ->
  exists c t, json_dumps v = c :: t /\ is_ws c = false /\ c <> 93.
Proof.
  destruct v as [ | [|] | z | lexeme | s | items | members]; intros Hwf.
  - by exists 110, [117; 108; 108].
  - by exists 116, [114; 117; 101].
  - by exists 102, [97; 108; 115; 101].
  - destruct (str_Z_head z) as (c & t & Hz & Hc).
    exists c, t. split; [exact Hz|]. split; [apply not_ws|]; lia.
  - discriminate.
  - eexists 34, _. by split; [reflexivity|].
  - eexists 91, _. by split; [reflexivity|].
  - eexists 123, _. by split; [reflexivity|].
Qed.

Lemma skip_ws_value (v : json) (rest : pystr) :
  well_formed v = true -> skip_ws (json_dumps v ++ rest) = json_dumps v ++ rest.
Proof.
  intros Hwf. destruct (json_dumps_head v Hwf) as (c & t & -> & Hc & _).
  by apply skip_ws_cons.
Qed.

Lemma comma_join_cons2 (a b : pystr) (r : list pystr) :
  comma_join (a :: b :: r) = a ++ 44 :: 32 :: comma_join (b :: r).
Proof. reflexivity. Qed.

Lemma scan_items_dumps (items : list json) :
  Forall reads_back items -> forallb well_formed items = true -> items <> [] ->
  forall (fuel : nat) (rest : pystr),
    (list_sum (map (fun x => S (weight x)) items) <= fuel)%nat ->
    scan_items fuel (comma_join (map json_dumps items) ++ 93 :: rest) = Some (items, rest).
Proof.
  induction 1 as [|x r Hx Hr IH]; intros Hwf Hne fuel rest Hfuel; [congruence|].
  cbn [forallb] in Hwf. apply andb_true_iff in Hwf as [Hwx Hwr].
  cbn [map list_sum] in Hfuel.
  destruct fuel as [|f]; [simpl in Hfuel; lia|].
  destruct r as [|y r'].
  - cbn [map comma_join scan_items].
    rewrite (Hx Hwx f (93 :: rest)); [reflexivity| right; by left | simpl in Hfuel; lia].
  - cbn [map]. rewrite comma_join_cons2, <- app_assoc.
    cbn [scan_items].
    rewrite (Hx Hwx f); [| by left | simpl in Hfuel |- *; lia].
    rewrite <- !app_comm_cons.
    rewrite (skip_ws_cons 44) by reflexivity.
    change (44 =? 93) with false. change (44 =? 44) with true. cbn iota.
    rewrite skip_ws_space.
    assert (Hskip : forall X, skip_ws (comma_join (json_dumps y :: map json_dumps r') ++ X)
                              = comma_join (json_dumps y :: map json_dumps r') ++ X).
    { intros X. cbn [forallb] in Hwr. apply andb_true_iff in Hwr as [Hwy _].
      destruct (json_dumps_head y Hwy) as (c & t & Hy & Hc & _).
      destruct r'; cbn [map comma_join]; rewrite Hy; by apply skip_ws_cons. }
    rewrite Hskip.
    change (json_dumps y :: map json_dumps r') with (map json_dumps (y :: r')).
    rewrite (IH Hwr); [reflexivity|discriminate|simpl in Hfuel |- *; lia].
Qed.

Lemma member_text_unfold (k : pystr) (v : json) (X : pystr) :
  member_text (k, v) ++ X
  = 34 :: concat (map escape_char k) ++ 34 :: 58 :: 32 :: json_dumps v ++ X.
Proof.
  cbn [fst snd]. unfold encode_string.
  rewrite <- !app_comm_cons, <- !app_assoc. reflexivity.
Qed.

Lemma scan_members_dumps (members : list (pystr * json)) :
  Forall (fun kv => reads_back kv.2) members ->
  forallb (fun kv => scalar_string kv.1 && well_formed kv.2) members = true ->
  members <> [] ->
  forall (fuel : nat) (rest X : pystr),
    34 :: X = comma_join (map member_text members) ++ 125 :: rest ->
    (list_sum (map (fun kv => S (weight kv.2)) members) <= fuel)%nat ->
    scan_members fuel X = Some (members, rest).
Proof.
  induction 1 as [|[k v] r Hv Hr IH]; intros Hwf Hne fuel rest X HX Hfuel; [congruence|].
  cbn [forallb fst snd] in Hwf. apply andb_true_iff in Hwf as [Hkv Hwr].
  apply andb_true_iff in Hkv as [Hk Hwv].
  cbn [map list_sum snd] in Hfuel. cbn [snd] in Hv.
  destruct fuel as [|f]; [simpl in Hfuel; lia|].
  destruct r as [|[k2 v2] r'].
  - assert (HX' : X = concat (map escape_char k) ++ 34 :: 58 :: 32 :: json_dumps v
                        ++ 125 :: rest).
    { cbn [map comma_join] in HX. rewrite member_text_unfold in HX.
      injection HX as HX. exact HX. }
    clear HX. subst X.
    cbn [scan_members]. rewrite (scanstring_encode k _ Hk).
    rewrite (skip_ws_cons 58) by reflexivity.
    change (58 =? 58) with true. cbn iota.
    rewrite skip_ws_space, (skip_ws_value v _ Hwv).
    rewrite (Hv Hwv f (125 :: rest)); [reflexivity| right; by right | simpl in Hfuel; lia].
  - assert (HX' : X = concat (map escape_char k) ++ 34 :: 58 :: 32 :: json_dumps v
                        ++ 44 :: 32 :: comma_join (map member_text ((k2, v2) :: r'))
                        ++ 125 :: rest).
    { cbn [map] in HX. rewrite comma_join_cons2, <- app_assoc in HX.
      rewrite member_text_unfold in HX. injection HX as HX. exact HX. }
    clear HX. subst X.
    cbn [scan_members]. rewrite (scanstring_encode k _ Hk).
    rewrite (skip_ws_cons 58) by reflexivity.
    change (58 =? 58) with true. cbn iota.
    rewrite skip_ws_space, (skip_ws_value v _ Hwv).
    rewrite <- ?app_comm_cons.
    rewrite (Hv Hwv f); [| by left | simpl in Hfuel |- *; lia].
    rewrite (skip_ws_cons 44) by reflexivity.
    change (44 =? 125) with false. change (44 =? 44) with true. cbn iota.
    rewrite skip_ws_space.
    assert (Hhead : exists Y, comma_join (map member_text ((k2, v2) :: r')) ++ 125 :: rest
                              = 34 :: Y).
    { destruct r'; cbn [map comma_join]; [|rewrite <- app_assoc];
        rewrite member_text_unfold; by eexists. }
    destruct Hhead as [Y HY]. rewrite HY.
    rewrite (skip_ws_cons 34) by reflexivity.
    change (34 =? 34) with true. cbn iota.
    rewrite (IH Hwr ltac:(discriminate) f rest Y); [reflexivity|by rewrite HY|].
    simpl in Hfuel |- *. lia.
Qed.

(** The round trip through the encoder and [scan_once]. *)
Lemma scan_once_dumps (v : json) : reads_back v.
Proof.
  induction v as [ | b | z | lexeme | s | items IH | members IH] using json_induction;
    intros Hwf fuel rest Hrest Hfuel.
  - destruct fuel as [|f]; [simpl in Hfuel; lia|]. reflexivity.
  - destruct fuel as [|f]; [simpl in Hfuel; lia|]. by destruct b.
  - destruct fuel as [|f]; [simpl in Hfuel; lia|]. by apply scan_once_int.
  - discriminate.
  - destruct fuel as [|f]; [simpl in Hfuel; lia|].
    change (json_dumps (JStr s) ++ rest)
      with (34 :: (concat (map escape_char s) ++ [34]) ++ rest).
    rewrite <- app_assoc. change ([34] ++ rest) with (34 :: rest).
    cbn [scan_once]. change (34 =? 34) with true. cbn iota.
    by rewrite (scanstring_encode s rest Hwf).
  - destruct fuel as [|f]; [simpl in Hfuel; lia|].
    cbn [well_formed weight] in *.
    change (json_dumps (JArr items) ++ rest)
      with (91 :: (comma_join (map json_dumps items) ++ [93]) ++ rest).
    rewrite <- app_assoc. cbn [scan_once].
    change (91 =? 34) with false. change (91 =? 123) with false.
    change (91 =? 91) with true. cbn iota.
    destruct items as [|x r]; [reflexivity|].
    assert (Hhead : exists c t, comma_join (map json_dumps (x :: r)) ++ [93] ++ rest = c :: t
                                /\ is_ws c = false /\ c <> 93).
    { cbn [forallb] in Hwf. apply andb_true_iff in Hwf as [Hwx _].
      destruct (json_dumps_head x Hwx) as (c & t & Hx & Hc).
      destruct r; cbn [map comma_join]; rewrite Hx; rewrite <- !app_comm_cons; by eexists _, _. }
    destruct Hhead as (c & t & Hct & Hws & H93).
    pose proof (scan_items_dumps (x :: r) IH Hwf ltac:(discriminate) f rest) as Hitems.
    change (comma_join (map json_dumps (x :: r)) ++ 93 :: rest)
      with (comma_join (map json_dumps (x :: r)) ++ [93] ++ rest) in Hitems.
    rewrite Hct in *. rewrite (skip_ws_cons c t Hws).
    destruct (N.eqb_spec c 93); [congruence|].
    rewrite Hitems; [reflexivity|lia].
  - destruct fuel as [|f]; [simpl in Hfuel; lia|].
    cbn [well_formed weight] in *.
    apply andb_true_iff in Hwf as [Hwm Hdistinct].
    change (json_dumps (JObj members) ++ rest)
      with (123 :: (comma_join (map member_text members) ++ [125]) ++ rest).
    rewrite <- app_assoc. cbn [scan_once].
    change (123 =? 34) with false. change (123 =? 123) with true. cbn iota.
    destruct members as [|kv r]; [reflexivity|].
    assert (Hhead : exists Y, comma_join (map member_text (kv :: r)) ++ [125] ++ rest = 34 :: Y).
    { destruct kv as [k v]. destruct r; cbn [map comma_join]; [|rewrite <- app_assoc];
        rewrite member_text_unfold; by eexists. }
    destruct Hhead as [Y HY]. rewrite HY.
    rewrite (skip_ws_cons 34) by reflexivity.
    change (34 =? 125) with false. change (34 =? 34) with true. cbn iota.
    rewrite (scan_members_dumps (kv :: r) IH Hwm ltac:(discriminate) f rest Y);
      [by rewrite dict_of_pairs_distinct | exact (eq_sym HY) | lia].
Qed.

(** The fuel a value takes is bounded by the length of its text. *)
Lemma items_weight_le (texts : list pystr) (weights : list nat) :
  Forall2 (fun w t => (w <= length t)%nat) weights texts ->
  (list_sum (map S weights) <= S (length (comma_join texts)))%nat.
Proof.
  induction 1 as [|w t ws ts Hwt Hrest IH]; [simpl; lia|].
  destruct Hrest as [|w2 t2 ws' ts' Hwt2 Hrest'].
  - simpl. lia.
  - rewrite comma_join_cons2. cbn [map list_sum] in *.
    rewrite length_app. cbn [length].
    set (n := length (comma_join (t2 :: ts'))) in *. simpl in *. lia.
Qed.

Lemma weight_le_length (v : json) :
  well_formed v = true -> (weight v <= length (json_dumps v))%nat.
Proof.
  induction v as [ | b | z | lexeme | s | items IH | members IH] using json_induction;
    intros Hwf.
  - simpl. lia.
  - destruct b; simpl; lia.
  - destruct (str_Z_head z) as (c & t & Hz & _). cbn [json_dumps weight].
    rewrite Hz. simpl. lia.
  - discriminate.
  - cbn [json_dumps weight]. unfold encode_string. simpl. lia.
  - cbn [json_dumps weight well_formed] in *.
    cbn [length]. rewrite length_app. cbn [length].
    pose proof (items_weight_le (map json_dumps items) (map weight items)) as H.
    rewrite map_map in H.
    enough (Forall2 (fun w t => (w <= length t)%nat) (map weight items) (map json_dumps items))
      by (specialize (H ltac:(assumption)); lia).
    clear H. induction IH as [|x r Hx Hr IHr]; [constructor|].
    cbn [forallb] in Hwf. apply andb_true_iff in Hwf as [Hwx Hwr].
    constructor; [by apply Hx | by apply IHr].
  - cbn [json_dumps weight well_formed] in *.
    apply andb_true_iff in Hwf as [Hwf _].
    cbn [length]. rewrite length_app. cbn [length].
    pose proof (items_weight_le (map member_text members)
                  (map (fun kv => weight kv.2) members)) as H.
    rewrite map_map in H.
    enough (Forall2 (fun w t => (w <= length t)%nat)
              (map (fun kv => weight kv.2) members) (map member_text members))
      by (specialize (H ltac:(assumption)); lia).
    clear H. induction IH as [|[k x] r Hx Hr IHr]; [constructor|].
    cbn [forallb fst snd] in Hwf. apply andb_true_iff in Hwf as [Hkx Hwr].
    apply andb_true_iff in Hkx as [_ Hwx].
    constructor; [|by apply IHr].
    cbn [fst snd] in *. rewrite !length_app. specialize (Hx Hwx). lia.
Qed.

Lemma json_loads_open_brace (t : pystr) :
  json_loads (123 :: t)
  = match scan_once (2 * S (length (123 :: t))) (123 :: t) with
    | Some (v, r) => match skip_ws r with [] => Some v | _ => None end
    | None => None
    end.
Proof. reflexivity. Qed.

(** [json.loads(json.dumps(d)) == d] for a well-formed dict. *)
Lemma json_loads_dumps_dict (d : list (pystr * json)) :
  well_formed (JObj d) = true -> json_loads (json_dumps (JObj d)) = Some (JObj d).
Proof.
  intros Hwf.
  pose proof (scan_once_dumps (JObj d) Hwf (2 * S (length (json_dumps (JObj d))))%nat []
                I) as H.
  rewrite app_nil_r in H.
  pose proof (weight_le_length (JObj d) Hwf) as Hw.
  specialize (H ltac:(lia)).
  change (json_dumps (JObj d)) with (123 :: comma_join (map member_text d) ++ [125]) in *.
  by rewrite json_loads_open_brace, H.
Qed.

(** *** Fuel *)

Lemma skip_ws_length (s : pystr) : (length (skip_ws s) <= length s)%nat.
Proof.
  induction s as [|c t IH]; simpl; [lia|].
  destruct (is_ws c); simpl; lia.
Qed.

Lemma scanstring_shorter (n : nat) (s str r : pystr) :
  (length s <= n)%nat -> scanstring s = Some (str, r) -> (length r < length s)%nat.
Proof.
  revert s str r. induction n as [|n IH]; intros s str r Hn H.
  - destruct s; [discriminate|simpl in Hn; lia].
  - destruct s as [|c t]; [discriminate|].
    cbn [scanstring] in H. cbn [length] in *.
    repeat (case_match; simplify_eq; cbn [length] in * );
      try lia;
      repeat match goal with
      | H : scanstring ?x = Some (_, ?r) |- _ =>
          apply IH in H; [|cbn [length] in *; lia]
      end; cbn [length] in *; lia.
Qed.

Lemma span_digits_length (s : pystr) : (length (span_digits s).2 <= length s)%nat.
Proof.
  induction s as [|c t IH]; simpl; [lia|].
  destruct (is_digit c); simpl; lia.
Qed.

Lemma scan_intpart_shorter (s ip r : pystr) :
  scan_intpart s = Some (ip, r) -> (length r < length s)%nat.
Proof.
  unfold scan_intpart. destruct s as [|c t]; [discriminate|].
  destruct (c =? 48); [intros H; simplify_eq; simpl; lia|].
  destruct (is_digit c) eqn:Hc; [|discriminate].
  intros H. pose proof (span_digits_length (c :: t)) as Hlen.
  destruct (span_digits (c :: t)) as [ds r'] eqn:Hspan. simplify_eq.
  simpl in Hspan. rewrite Hc in Hspan. simplify_eq.
  pose proof (span_digits_length t). simpl. lia.
Qed.

Lemma scan_frac_length (s : pystr) : (length (scan_frac s).2 <= length s)%nat.
Proof.
  unfold scan_frac. destruct s as [|c t]; [simpl; lia|].
  destruct (c =? 46); [|simpl; lia].
  pose proof (span_digits_length t).
  destruct (span_digits t).1; simpl in *; lia.
Qed.

Lemma scan_exp_length (s : pystr) : (length (scan_exp s).2 <= length s)%nat.
Proof.
  unfold scan_exp. destruct s as [|c t]; [simpl; lia|].
  destruct ((c =? 101) || (c =? 69)); [|simpl; lia].
  pose proof (span_digits_length (drop (length (scan_sign t)) t)) as H.
  rewrite length_drop in H.
  destruct (span_digits (drop (length (scan_sign t)) t)).1; simpl in *; lia.
Qed.

Lemma scan_number_shorter (s r : pystr) (v : json) :
  scan_number s = Some (v, r) -> (length r < length s)%nat.
Proof.
  unfold scan_number.
  destruct (scan_intpart (drop (length (scan_minus s)) s)) as [[ip r1]|] eqn:Hip; [|discriminate].
  apply scan_intpart_shorter in Hip. rewrite length_drop in Hip.
  pose proof (scan_frac_length r1) as Hf.
  destruct (scan_frac r1) as [frac r2]. cbn [snd] in Hf.
  pose proof (scan_exp_length r2) as He.
  destruct (scan_exp r2) as [ex r3]. cbn [snd] in He.
  destruct (frac ++ ex); intros H; simplify_eq; lia.
Qed.

Lemma strip_prefix_length (lit s r : pystr) :
  strip_prefix lit s = Some r -> length s = (length lit + length r)%nat.
Proof.
  revert s. induction lit as [|a lit IH]; intros [|b s] H; simpl in *; simplify_eq; try done.
  destruct (a =? b); [|discriminate]. apply IH in H. lia.
Qed.

Lemma scan_literal_shorter (s r : pystr) (v : json) :
  scan_literal s = Some (v, r) -> (length r < length s)%nat.
Proof.
  unfold scan_literal. intros H.
  repeat (case_match; simplify_eq);
    try match goal with
        | H : strip_prefix _ _ = Some _ |- _ =>
            apply strip_prefix_length in H; vm_compute (length (py _)) in H; lia
        end.
  by eapply scan_number_shorter.
Qed.

(** Collects what the hypotheses say about the lengths of the inputs. *)
Ltac length_facts :=
  repeat match goal with
  | H : context [skip_ws ?x] |- _ =>
    lazymatch goal with
    | _ : (length (skip_ws x) <= length x)%nat |- _ => fail
    | _ => pose proof (skip_ws_length x)
    end
  | |- context [skip_ws ?x] =>
    lazymatch goal with
    | _ : (length (skip_ws x) <= length x)%nat |- _ => fail
    | _ => pose proof (skip_ws_length x)
    end
  end;
  repeat match goal with
  | H : skip_ws ?x = _ |- _ => rewrite H in *
  end;
  repeat match goal with
  | H : scanstring ?x = Some (_, _) |- _ =>
    apply (scanstring_shorter (length x)) in H; [|reflexivity]
  | H : scan_literal _ = Some (_, _) |- _ => apply scan_literal_shorter in H
  end;
  cbn [length] in *.

Lemma scan_shorter (f : nat) :
  (forall s v r, scan_once f s = Some (v, r) -> (length r < length s)%nat)
  /\ (forall s ps r, scan_members f s = Some (ps, r) -> (length r < length s)%nat)
  /\ (forall s xs r, scan_items f s = Some (xs, r) -> (length r < length s)%nat).
Proof.
  induction f as [|f (I1 & I2 & I3)]; [by repeat split|].
  repeat split.
  - intros s v r H. cbn [scan_once] in H.
    repeat (case_match; simplify_eq);
      repeat match goal with
      | H : scan_members f _ = Some _ |- _ => apply I2 in H
      | H : scan_items f _ = Some _ |- _ => apply I3 in H
      end; length_facts; lia.
  - intros s ps r H. cbn [scan_members] in H.
    repeat (case_match; simplify_eq);
      repeat match goal with
      | H : scan_once f _ = Some _ |- _ => apply I1 in H
      | H : scan_members f _ = Some _ |- _ => apply I2 in H
      end; length_facts; lia.
  - intros s xs r H. cbn [scan_items] in H.
    repeat (case_match; simplify_eq);
      repeat match goal with
      | H : scan_once f _ = Some _ |- _ => apply I1 in H
      | H : scan_items f _ = Some _ |- _ => apply I3 in H
      end; length_facts; lia.
Qed.

Ltac shorter_facts f :=
  repeat match goal with
  | H : scan_once f _ = Some (_, _) |- _ => apply (proj1 (scan_shorter f)) in H
  | H : scan_members f _ = Some (_, _) |- _ => apply (proj1 (proj2 (scan_shorter f))) in H
  | H : scan_items f _ = Some (_, _) |- _ => apply (proj2 (proj2 (scan_shorter f))) in H
  end.

(** With more fuel than twice the length of the input, the fuel does not
    matter. *)
Lemma scan_fuel (f : nat) :
  forall f',
    (forall s, (2 * length s < f)%nat -> (2 * length s < f')%nat ->
               scan_once f s = scan_once f' s)
    /\ (forall s, (2 * length s < f)%nat -> (2 * length s < f')%nat ->
                  scan_members f s = scan_members f' s)
    /\ (forall s, (2 * length s + 1 < f)%nat -> (2 * length s + 1 < f')%nat ->
                  scan_items f s = scan_items f' s).
Proof.
  induction f as [|f IH]; intros f'; [repeat split; intros; lia|].
  destruct f' as [|f']; [repeat split; intros; lia|].
  destruct (IH f') as (I1 & I2 & I3).
  repeat split; intros s Hf Hf'.
  - cbn [scan_once].
    repeat first
      [ reflexivity
      | rewrite I2 by (length_facts; lia)
      | rewrite I3 by (length_facts; lia)
      | case_match; simplify_eq ].
  - cbn [scan_members].
    repeat first
      [ reflexivity
      | rewrite I1 by (pose proof (scan_shorter f') as ?; shorter_facts f'; length_facts; lia)
      | rewrite I2 by (shorter_facts f'; length_facts; lia)
      | case_match; simplify_eq ].
  - cbn [scan_items].
    repeat first
      [ reflexivity
      | rewrite I1 by (length_facts; lia)
      | rewrite I3 by (shorter_facts f'; length_facts; lia)
      | case_match; simplify_eq ].
Qed.

(** [json_loads] gives [scan_once] enough fuel: any larger amount yields
    the same result. *)
Lemma scan_once_enough_fuel (fuel : nat) (s : pystr) :
  (2 * S (length s) <= fuel)%nat ->
  scan_once fuel (skip_ws s) = scan_once (2 * S (length s)) (skip_ws s).
Proof.
  intros H. pose proof (skip_ws_length s).
  apply scan_fuel; lia.
Qed.

(** ** Reading the model's reply *)

Lemma dotstar_close_none (s : pystr) : 125 ∉ s -> dotstar_close s = None.
Proof.
  induction s as [|c t IH]; [reflexivity|].
  intros H. apply not_elem_of_cons in H as [Hc Ht].
  simpl. rewrite (IH Ht).
  destruct (N.eqb_spec c 125); congruence.
Qed.

Lemma dotstar_close_last (m suffix : pystr) :
  125 ∉ suffix -> dotstar_close (m ++ 125 :: suffix) = Some (m ++ [125]).
Proof.
  intros H. induction m as [|c t IH]; simpl.
  - by rewrite (dotstar_close_none suffix H).
  - by rewrite IH.
Qed.

(** The pattern matches from the first opening brace to the last closing
    brace. *)
Lemma re_search_first_to_last (prefix body suffix : pystr) :
  123 ∉ prefix -> 125 ∉ suffix ->
  re_search (prefix ++ 123 :: body ++ 125 :: suffix) = Some (123 :: body ++ [125]).
Proof.
  intros Hp Hs. induction prefix as [|c t IH]; simpl.
  - by rewrite dotstar_close_last.
  - apply not_elem_of_cons in Hp as [Hc Ht].
    destruct (N.eqb_spec c 123); [congruence|]. by apply IH.
Qed.

Lemma re_search_head (s span : pystr) :
  re_search s = Some span -> exists t, span = 123 :: t.
Proof.
  induction s as [|c t IH]; simpl; [discriminate|].
  destruct (N.eqb_spec c 123) as [->|_]; [|exact IH].
  destruct (dotstar_close t) as [m|]; [|exact IH].
  intros [= <-]. by eexists.
Qed.

(** Text that opens with a brace decodes to a dict or not at all. *)
Lemma json_loads_brace (t : pystr) (v : json) :
  json_loads (123 :: t) = Some v -> exists d, v = JObj d.
Proof.
  unfold json_loads.
  change (skip_ws (123 :: t)) with (123 :: t).
  cbn [Nat.mul Nat.add length]. cbn [scan_once].
  change (123 =? 34) with false. change (123 =? 123) with true. cbn iota.
  destruct (skip_ws t) as [|c1 r]; [discriminate|].
  destruct (c1 =? 125).
  { destruct (skip_ws r); [|discriminate]. intros [= <-]. by eexists. }
  destruct (c1 =? 34); [|discriminate].
  match goal with |- context [scan_members ?f r] => destruct (scan_members f r) as [[pairs r']|] end;
    [|discriminate].
  destruct (skip_ws r'); [|discriminate]. intros [= <-]. by eexists.
Qed.

Lemma interpret_ats_score (raw : pystr) :
  interpret (py "ats_score") raw =
  match re_search raw with
  | Some span =>
    match json_loads span with
    | Some parsed => (Parsed parsed, [])
    | None => (Text raw, [StWarning (py "Could not parse JSON: ")])
    end
  | None => (Text raw, [])
  end.
Proof.
  unfold interpret.
  destruct (decide (py "ats_score" = py "ats_score")); [reflexivity|congruence].
Qed.

Lemma not_elem_decide (x : N) (l : pystr) : bool_decide (x ∈ l) = false -> x ∉ l.
Proof. intros H. by apply bool_decide_eq_false in H. Qed.

(** A reply made of a commentary without opening brace, the text of a
    well-formed dict, and a commentary without closing brace: the pattern
    selects the text of the dict, and decoding gives the dict back. *)
Lemma interpret_embedded_dict (d : list (pystr * json)) (prefix suffix : pystr) :
  well_formed (JObj d) = true -> 123 ∉ prefix -> 125 ∉ suffix ->
  re_search (prefix ++ json_dumps (JObj d) ++ suffix) = Some (json_dumps (JObj d))
  /\ interpret (py "ats_score") (prefix ++ json_dumps (JObj d) ++ suffix)
     = (Parsed (JObj d), []).
Proof.
  intros Hwf Hp Hs.
  assert (Hsearch : re_search (prefix ++ json_dumps (JObj d) ++ suffix)
                    = Some (json_dumps (JObj d))).
  { change (json_dumps (JObj d)) with (123 :: comma_join (map member_text d) ++ [125]).
    rewrite <- app_comm_cons, <- app_assoc.
    exact (re_search_first_to_last prefix _ suffix Hp Hs). }
  split; [exact Hsearch|].
  by rewrite interpret_ats_score, Hsearch, (json_loads_dumps_dict d Hwf).
Qed.

(** The dict of a structured score whose strings hold scalar characters is
    well formed. *)
Lemma score_dict_well_formed (s : structured_score) :
  scalar_score s = true -> well_formed (JObj (score_dict s)) = true.
Proof.
  unfold scalar_score. intros H.
  repeat (apply andb_true_iff in H as [H ?]).
  match goal with Hs : scalar_string (shortlist_time s) = true |- _ => rename Hs into Hshort end.
  assert (Hstrings : forall l, forallb scalar_string l = true -> well_formed (strings l) = true).
  { intros l Hl. unfold strings. cbn [well_formed].
    induction l as [|x r IH]; [reflexivity|].
    cbn [forallb] in Hl. apply andb_true_iff in Hl as [Hx Hr].
    cbn [forallb map well_formed]. by rewrite Hx, IH. }
  unfold score_dict.
  cbn [well_formed forallb fst snd].
  rewrite !Hstrings by assumption.
  rewrite H, Hshort. reflexivity.
Qed.

Lemma map_JStr_inj (l l' : list pystr) : map JStr l = map JStr l' -> l = l'.
Proof.
  revert l'. induction l as [|x r IH]; intros [|y r'] H; try discriminate; [reflexivity|].
  injection H as -> H. f_equal. by apply IH.
Qed.

(** A structured score can be read off its dict. *)
Lemma score_dict_inj (s s' : structured_score) : score_dict s = score_dict s' -> s = s'.
Proof.
  destruct s, s'. unfold score_dict. cbn [Ai.overall_score Ai.keyword_match
    Ai.experience_match Ai.skills_match Ai.education_match Ai.formatting Ai.readability
    Ai.pass_ats Ai.interview_probability Ai.shortlist_time Ai.matched Ai.missing
    Ai.suggested Ai.improvements Ai.ats_optimization_tips].
  intros H. injection H as. subst.
  repeat match goal with H : map JStr _ = map JStr _ |- _ => apply map_JStr_inj in H end.
  by subst.
Qed.

(** C4, as the claim states it, fails: with a remark in braces after the
    JSON, the first balanced brace-delimited substring is the text of the
    structured score, but the pattern selects up to the last closing brace
    of the reply, decoding fails and the raw text comes back instead of the
    score. *)
Lemma braces_in_commentary_break_round_trip :
  scalar_score full_score = true
  /\ spec_first_balanced_span reply_with_braces = Some full_score_text
  /\ re_search reply_with_braces <> spec_first_balanced_span reply_with_braces
  /\ (interpret (py "ats_score") reply_with_braces).1 = Text reply_with_braces
  /\ (interpret (py "ats_score") reply_with_braces).1 <> Parsed (JObj (score_dict full_score)).
Proof.
  split; [vm_compute; reflexivity|]. split; [vm_compute; reflexivity|].
  split; [vm_compute; discriminate|].
  assert (H : (interpret (py "ats_score") reply_with_braces).1 = Text reply_with_braces)
    by (vm_compute; reflexivity).
  split; [exact H|]. rewrite H. discriminate.
Qed.

(** C4, amended: for every structured score S whose strings hold scalar
    characters, written by [json.dumps], every commentary before it that
    holds no opening brace and every commentary after it that holds no
    closing brace, the "ats_score" handling selects the text from the first
    opening to the last closing brace of the reply, which is the text of S,
    and decoding it gives S back, without a warning. *)
Theorem embedded_score_round_trip (S : structured_score) (prefix suffix : pystr) :
  scalar_score S = true -> 123 ∉ prefix -> 125 ∉ suffix ->
  let serialized := json_dumps (JObj (score_dict S)) in
  re_search (prefix ++ serialized ++ suffix) = Some serialized
  /\ json_loads serialized = Some (JObj (score_dict S))
  /\ interpret (py "ats_score") (prefix ++ serialized ++ suffix)
     = (Parsed (JObj (score_dict S)), []).
Proof.
  intros Hs Hp Hsuf. cbv zeta.
  pose proof (score_dict_well_formed S Hs) as Hwf.
  destruct (interpret_embedded_dict (score_dict S) prefix suffix Hwf Hp Hsuf) as [H1 H2].
  split; [exact H1|]. split; [by apply json_loads_dumps_dict|exact H2].
Qed.

Lemma embedded_score_round_trip_witness :
  scalar_score full_score = true
  /\ interpret (py "ats_score") reply_with_thanks = (Parsed (JObj (score_dict full_score)), []).
Proof.
  split; [vm_compute; reflexivity|].
  apply (embedded_score_round_trip full_score (py "Here is the result: ") (py " Thanks!")).
  - vm_compute. reflexivity.
  - apply not_elem_decide. vm_compute. reflexivity.
  - apply not_elem_decide. vm_compute. reflexivity.
Defined.

(** The partial payload of the scenario of the specification goes through
    as well. *)
Example score_72_round_trip :
  interpret (py "ats_score")
    (py "Here is the result: " ++ json_dumps (JObj score_72) ++ py " Thanks!")
  = (Parsed (JObj score_72), []).
Proof.
  apply interpret_embedded_dict.
  - reflexivity.
  - apply not_elem_decide. vm_compute. reflexivity.
  - apply not_elem_decide. vm_compute. reflexivity.
Qed.

(** C5: in "ats_score" mode, when the reply holds no brace-delimited
    substring, or holds one that is not valid JSON, [analyze_with_ai]
    returns the reply itself, unchanged (the function is total: nothing is
    raised). *)
Theorem malformed_or_absent_json_returns_raw
    (client : Client) (model_id job_desc resume_text raw : pystr) :
  client (chat_request model_id
            {| system := ats_score_system; user := ats_score_user job_desc resume_text |})
  = Returns raw ->
  (re_search raw = None
   \/ exists span, re_search raw = Some span /\ json_loads span = None) ->
  (analyze_with_ai client model_id job_desc resume_text (py "ats_score")).1 = Text raw.
Proof.
  intros Hreply Hbad. unfold analyze_with_ai.
  rewrite prompt_lookup_ats_score, Hreply, interpret_ats_score.
  destruct Hbad as [-> | (span & -> & ->)]; reflexivity.
Qed.

Lemma malformed_or_absent_json_witness :
  (exists span, re_search malformed_reply = Some span /\ json_loads span = None)
  /\ (analyze_with_ai (canned malformed_reply) (py "llama-3.1-8b-instant")
        (py "Python Developer") (py "Jane Doe") (py "ats_score")).1
     = Text malformed_reply.
Proof.
  assert (H : exists span, re_search malformed_reply = Some span /\ json_loads span = None).
  { exists (py "{overall_score: 72}"). split; vm_compute; reflexivity. }
  split; [exact H|].
  apply (malformed_or_absent_json_returns_raw (canned malformed_reply));
    [reflexivity | right; exact H].
Defined.

(** C9, as the claim states it, fails: a reply whose JSON carries an
    overall score of 150 and a sub-score of 250 is decoded and returned as
    it is. *)
Lemma over_range_scores_returned :
  (interpret (py "ats_score") over_range_reply).1 = Parsed over_range_payload
  /\ scores_in_range over_range_payload = false.
Proof. split; vm_compute; reflexivity. Qed.

(** C9, amended: a payload produced in "ats_score" mode is the dict that
    [json.loads] decodes from the text between the first opening and the
    last closing brace of the reply, returned without any validation; its
    scores are in range exactly when those of that decoded text are. *)
Theorem parsed_payload_is_decoded_span (raw : pystr) (payload : json) :
  (interpret (py "ats_score") raw).1 = Parsed payload ->
  exists span d,
    re_search raw = Some span
    /\ json_loads span = Some payload
    /\ payload = JObj d
    /\ (interpret (py "ats_score") raw).2 = [].
Proof.
  rewrite interpret_ats_score.
  destruct (re_search raw) as [span|] eqn:Hspan; [|discriminate].
  destruct (json_loads span) as [v|] eqn:Hv; [|discriminate].
  simpl. intros [= ->].
  destruct (re_search_head _ _ Hspan) as [t ->].
  destruct (json_loads_brace _ _ Hv) as [d ->].
  by exists (123 :: t), d.
Qed.

Lemma parsed_payload_witness :
  (interpret (py "ats_score") over_range_reply).1 = Parsed over_range_payload
  /\ exists span d,
       re_search over_range_reply = Some span
       /\ json_loads span = Some over_range_payload
       /\ over_range_payload = JObj d
       /\ (interpret (py "ats_score") over_range_reply).2 = [].
Proof.
  assert (H : (interpret (py "ats_score") over_range_reply).1 = Parsed over_range_payload)
    by (vm_compute; reflexivity).
  split; [exact H|].
  exact (parsed_payload_is_decoded_span over_range_reply over_range_payload H).
Defined.

(** ** Statistics over the history *)

(** On entries recorded by [main], the sidebar sums the same scores as the
    Visualize tab lists. *)
Lemma sidebar_scores_recorded (history : list analysis) :
  Forall recorded history -> sidebar_scores history = ats_scores history.
Proof.
  induction 1 as [|a rest Ha _ IH]; [reflexivity|].
  simpl. rewrite Ha, IH. unfold score_key.
  destruct (decide (type a = py "ats_score")); [|reflexivity].
  destruct (as_dict (result_of a)); reflexivity.
Qed.

Lemma analysis_data_recorded (analysis_type selected_model_name now uploaded_name job_desc : pystr)
    (r : result) :
  recorded (analysis_data analysis_type selected_model_name now uploaded_name job_desc r).
Proof. reflexivity. Qed.



(** With the cover letter in the history the sidebar divides the same sum
    by 4 entries and shows another average than the Visualize tab. *)
Example sidebar_counts_every_entry :
  option_map percent_1f (sidebar_avg_score three_scores_and_a_letter) = Some (py "53.8%")
  /\ option_map percent_1f (sidebar_avg_score three_scores) = Some (py "71.7%").
Proof. split; vm_compute; reflexivity. Qed.

(** * Further properties *)

Import Main.

(** ** The reply of the model *)

Lemma dotstar_close_some (s m : pystr) :
  dotstar_close s = Some m ->
  exists body suffix, s = body ++ 125 :: suffix /\ (125 ∉ suffix) /\ m = body ++ [125].
Proof.
  revert m. induction s as [|c t IH]; intros m; [discriminate|].
  simpl. destruct (dotstar_close t) as [m'|] eqn:Ht.
  - intros [= <-]. destruct (IH m' eq_refl) as (body & suffix & -> & Hs & ->).
    by exists (c :: body), suffix.
  - destruct (N.eqb_spec c 125) as [->|]; [|discriminate].
    intros [= <-]. exists [], t. split; [reflexivity|]. split; [|reflexivity].
    intros Hin. clear IH. induction t as [|d t IHt]; [by apply not_elem_of_nil in Hin|].
    simpl in Ht. destruct (dotstar_close t); [discriminate|].
    destruct (N.eqb_spec d 125); [discriminate|].
    apply elem_of_cons in Hin as [Heq|Hin]; [congruence|]. by apply IHt.
Qed.

(** X1: the pattern finds a match exactly when some opening brace comes
    before some closing brace, and the match then runs from the first
    opening brace of the text to its last closing brace. *)
Theorem re_search_first_open_to_last_close (s span : pystr) :
  re_search s = Some span <->
  exists prefix body suffix,
    s = prefix ++ 123 :: body ++ 125 :: suffix
    /\ (123 ∉ prefix) /\ (125 ∉ suffix) /\ span = 123 :: body ++ [125].
Proof.
  split.
  - revert span. induction s as [|c t IH]; intros span; [discriminate|].
    simpl. destruct (N.eqb_spec c 123) as [->|Hc].
    + destruct (dotstar_close t) as [m|] eqn:Ht.
      * intros [= <-]. destruct (dotstar_close_some t m Ht) as (body & suffix & -> & Hs & ->).
        exists [], body, suffix. repeat split; [apply not_elem_of_nil|exact Hs].
      * intros H. destruct (IH span H) as (prefix & body & suffix & -> & _ & Hs & _).
        replace (prefix ++ 123 :: body ++ 125 :: suffix)
          with ((prefix ++ 123 :: body) ++ 125 :: suffix) in Ht
          by (by rewrite <- app_assoc).
        rewrite (dotstar_close_last (prefix ++ 123 :: body) suffix Hs) in Ht. discriminate.
    + intros H. destruct (IH span H) as (prefix & body & suffix & -> & Hp & Hs & ->).
      exists (c :: prefix), body, suffix. repeat split; [|exact Hs].
      apply not_elem_of_cons. split; [congruence|exact Hp].
  - intros (prefix & body & suffix & -> & Hp & Hs & ->).
    by apply re_search_first_to_last.
Qed.

Lemma prompt_lookup_known (mode job_desc resume_text : pystr) :
  (exists p, prompt_lookup mode (analysis_prompts job_desc resume_text) = Returns p)
  <-> (mode = py "detailed" \/ mode = py "ats_score" \/ mode = py "cover_letter").
Proof.
  unfold analysis_prompts, prompt_lookup.
  repeat case_decide; split; try (intros; eauto; fail).
  - intros [p ?]. discriminate.
  - intros [-> | [-> | ->]]; congruence.
Qed.

(** X2: in the modes other than "ats_score" the reply of the model is
    returned as it is, with no notice, whatever it holds (JSON included). *)
Theorem plain_modes_return_reply
    (client : Client) (model_id job_desc resume_text mode raw : pystr) (p : prompt) :
  prompt_lookup mode (analysis_prompts job_desc resume_text) = Returns p ->
  mode <> py "ats_score" ->
  client (chat_request model_id p) = Returns raw ->
  analyze_with_ai client model_id job_desc resume_text mode = (Text raw, []).
Proof.
  intros Hp Hmode Hreply. unfold analyze_with_ai. rewrite Hp, Hreply.
  unfold interpret. by destruct (decide (mode = py "ats_score")).
Qed.

Lemma plain_modes_return_reply_witness :
  analyze_with_ai (canned over_range_reply) (py "llama-3.1-8b-instant")
    (py "Python Developer") (py "Jane Doe") (py "cover_letter")
  = (Text over_range_reply, []).
Proof.
  eapply plain_modes_return_reply.
  - apply prompt_lookup_cover_letter.
  - apply py_neq. vm_compute. reflexivity.
  - reflexivity.
Defined.

Lemma interpret_some_result (mode raw : pystr) : (interpret mode raw).1 <> NoResult.
Proof.
  unfold interpret. destruct (decide _); [|discriminate].
  destruct (re_search raw); [|discriminate]. by destruct (json_loads _).
Qed.

(** X3: [analyze_with_ai] returns [None] exactly when the analysis type is
    not one of the three keys of the prompt table or the call to the model
    raises; it then shows one error and nothing else. *)
Theorem no_result_iff_unknown_mode_or_failed_call
    (client : Client) (model_id job_desc resume_text mode : pystr) :
  let run := analyze_with_ai client model_id job_desc resume_text mode in
  (run.1 = NoResult <->
     (mode <> py "detailed" /\ mode <> py "ats_score" /\ mode <> py "cover_letter")
     \/ exists p e,
          prompt_lookup mode (analysis_prompts job_desc resume_text) = Returns p
          /\ client (chat_request model_id p) = Raises e)
  /\ (run.1 = NoResult -> exists e, run.2 = [analysis_error e]).
Proof.
  cbv zeta. unfold analyze_with_ai.
  destruct (prompt_lookup mode (analysis_prompts job_desc resume_text)) as [p|e] eqn:Hp.
  - destruct (client (chat_request model_id p)) as [raw|e] eqn:Hc.
    + split.
      * split; [intros H; by apply interpret_some_result in H|].
        intros [(H1 & H2 & H3) | (p' & e & [= <-] & Hc')]; [|congruence].
        exfalso. assert (Hk : exists p, prompt_lookup mode (analysis_prompts job_desc resume_text)
                                        = Returns p) by eauto.
        apply prompt_lookup_known in Hk as [? | [? | ?]]; congruence.
      * intros H. by apply interpret_some_result in H.
    + split; [|by eexists]. split; [|done]. intros _. right. by exists p, e.
  - split; [|by eexists]. split; [|done]. intros _. left.
    assert (Hk : ~ exists p, prompt_lookup mode (analysis_prompts job_desc resume_text) = Returns p).
    { intros [p Hp']. congruence. }
    rewrite prompt_lookup_known in Hk. repeat split; intros ->; apply Hk; auto.
Qed.

(** X4: in "ats_score" mode a warning is shown exactly when a
    brace-delimited span is found and does not decode; a reply without
    such a span comes back silently. *)
Theorem warning_iff_span_does_not_decode (raw : pystr) :
  (interpret (py "ats_score") raw).2 <> []
  <-> exists span, re_search raw = Some span /\ json_loads span = None.
Proof.
  rewrite interpret_ats_score.
  destruct (re_search raw) as [span|].
  - destruct (json_loads span) eqn:Hj; simpl.
    + split; [done|]. intros (span' & [= <-] & Hn). congruence.
    + split; [|done]. intros _. by exists span.
  - simpl. split; [done|]. by intros (span & ? & _).
Qed.


(** ** The size of the prompts *)

(** Replaces the length of a fixed part of a template by its value. *)
Ltac fixed_lengths :=
  repeat match goal with
  | |- context [length (concat ?x)] =>
    let v := eval vm_compute in (length (concat x)) in
    let E := fresh "E" in
    assert (E : length (concat x) = v) by (vm_compute; reflexivity);
    rewrite E; clear E
  | |- context [length (unlines ?x)] =>
    let v := eval vm_compute in (length (unlines x)) in
    let E := fresh "E" in
    assert (E : length (unlines x) = v) by (vm_compute; reflexivity);
    rewrite E; clear E
  end.

(** X5: the length of each user prompt: the fixed text of its template plus
    the interpolated copies, so at most 5342 characters for "detailed" and
    3019 for "ats_score", while "cover_letter" grows with the whole job
    description. *)
Theorem user_prompt_lengths (job_desc resume_text : pystr) :
  length (detailed_user job_desc resume_text)
  = (1342 + min 2000 (length job_desc) + min 2000 (length resume_text))%nat
  /\ length (ats_score_user job_desc resume_text)
     = (1019 + min 1000 (length job_desc) + min 1000 (length resume_text))%nat
  /\ length (cover_letter_user job_desc resume_text)
     = (468 + length job_desc + min 1500 (length resume_text))%nat.
Proof.
  repeat split.
  - unfold detailed_user.
    around_line (take 2000 job_desc). around_line (take 2000 resume_text).
    rewrite !length_app, !length_take. fixed_lengths.
    change (length nl) with 1%nat. lia.
  - unfold ats_score_user.
    around_line (take 1000 job_desc). around_line (take 1000 resume_text).
    rewrite !length_app, !length_take. fixed_lengths.
    change (length nl) with 1%nat. lia.
  - unfold cover_letter_user.
    around_line job_desc. around_line (take 1500 resume_text).
    rewrite !length_app, !length_take. fixed_lengths.
    change (length nl) with 1%nat. lia.
Qed.

(** ** The temporary file and the text gathered by the methods *)

(** X6: when the temporary name is fresh and neither the write nor the
    unlink raises, [extract_text_from_pdf] leaves the file system exactly
    as it found it, in any namespace and whatever the libraries do. *)
Theorem extraction_restores_files
    (G : list string) (L : PdfLibs) (os : OS) (uploaded_file : UploadedFile)
    (fs : files) (tmp_path : pystr) :
  NamedTemporaryFile os = Returns tmp_path -> fs !! tmp_path = None ->
  write_error os = None -> unlink_error os = None ->
  (extract_text_from_pdf_in G L os uploaded_file fs).2 = fs.
Proof.
  intros Htmp Hfresh Hw Hu. unfold extract_text_from_pdf_in.
  rewrite Htmp, Hw, Hu. cbn [snd].
  rewrite insert_insert_eq, delete_insert_eq. by apply delete_id.
Qed.

Lemma extraction_restores_files_witness :
  (extract_text_from_pdf_in with_pdf_imports jane_doe_libs quiet_os jane_doe_pdf ∅).2 = ∅.
Proof.
  apply (extraction_restores_files with_pdf_imports jane_doe_libs quiet_os jane_doe_pdf ∅ tmp_pdf);
    reflexivity.
Defined.

(** X7: whatever happens, [extract_text_from_pdf] touches no file other
    than its temporary file. *)
Theorem extraction_touches_only_temp_file
    (G : list string) (L : PdfLibs) (os : OS) (uploaded_file : UploadedFile)
    (fs : files) (path : pystr) :
  NamedTemporaryFile os <> Returns path ->
  (extract_text_from_pdf_in G L os uploaded_file fs).2 !! path = fs !! path.
Proof.
  intros Hpath. unfold extract_text_from_pdf_in.
  destruct (NamedTemporaryFile os) as [tmp_path|e]; [|reflexivity].
  assert (tmp_path <> path) by congruence.
  destruct (write_error os); cbn [snd]; [by rewrite lookup_insert_ne|].
  destruct (unlink_error os); cbn [snd].
  - by rewrite !lookup_insert_ne.
  - by rewrite lookup_delete_ne, !lookup_insert_ne.
Qed.

Lemma extraction_touches_only_temp_file_witness :
  (extract_text_from_pdf jane_doe_libs quiet_os jane_doe_pdf
     {[ py "/home/jane/notes.txt" := py "keep" ]}).2 !! py "/home/jane/notes.txt"
  = Some (py "keep").
Proof.
  rewrite (extraction_touches_only_temp_file module_globals jane_doe_libs quiet_os jane_doe_pdf
             {[ py "/home/jane/notes.txt" := py "keep" ]} (py "/home/jane/notes.txt")).
  - vm_compute. reflexivity.
  - intros H. vm_compute in H. discriminate.
Defined.

Lemma plumber_texts_prefix (pages : list plumber_page) (text : pystr) :
  text `prefix_of` (plumber_texts pages text).1.
Proof.
  revert text. induction pages as [|p ps IH]; intros text; simpl; [done|].
  destruct (extract_text p) as [[page_text|]|e]; [|apply IH|done].
  destruct (truthy page_text); [|apply IH].
  etransitivity; [|apply IH]. by apply prefix_app_r.
Qed.

Lemma fitz_texts_prefix (doc : list fitz_page) (text : pystr) :
  text `prefix_of` (fitz_texts doc text).1.
Proof.
  revert text. induction doc as [|p ps IH]; intros text; simpl; [done|].
  destruct (get_text p) as [t|e]; [|done].
  etransitivity; [|apply IH]. by apply prefix_app_r.
Qed.

Lemma reader_texts_prefix (pages : list reader_page) (text : pystr) :
  text `prefix_of` (reader_texts pages text).1.
Proof.
  revert text. induction pages as [|p ps IH]; intros text; simpl; [done|].
  destruct (reader_extract_text p) as [[page_text|]|e]; [|apply IH|done].
  destruct (truthy page_text); [|apply IH].
  etransitivity; [|apply IH]. by apply prefix_app_r.
Qed.

(** X8: in any namespace and whatever the libraries return or raise, each
    method only appends to the text: what an earlier method gathered is a
    prefix of the text after every later one, also when a method fails
    half-way or is skipped. *)
Theorem methods_only_append
    (G : list string) (L : PdfLibs) (fs : files) (tmp_path : pystr)
    (uploaded_file : UploadedFile) :
  let run := cascade G L fs tmp_path uploaded_file in
  (text1 run `prefix_of` text2 run) /\ (text2 run `prefix_of` text3 run).
Proof.
  cbv zeta. unfold cascade. cbn [text1 text2 text3].
  set (r1 := method1 G L fs tmp_path []).
  split.
  - destruct (not_enough_text r1.1); [|done].
    unfold method2. destruct (resolve G "fitz"); [|done].
    destruct (open_path (fitz_open L) fs tmp_path); [|done].
    apply fitz_texts_prefix.
  - set (r2 := if not_enough_text r1.1 then method2 G L fs tmp_path r1.1 else (r1.1, Returns ())).
    destruct (not_enough_text r2.1); [|done].
    unfold method3. destruct (resolve G "PyPDF2"); [|done].
    destruct (PdfReader L (getvalue uploaded_file)); [|done].
    apply reader_texts_prefix.
Qed.


(** ** The size of the upload *)

Section FileSize.
Local Open Scope Z_scope.

Lemma round_half_even_exact (q den : Z) : 0 < den -> round_half_even (q * den) den = q.
Proof.
  intros Hden. unfold round_half_even.
  rewrite Z.div_mul by lia. rewrite Z.mod_mul by lia.
  destruct (Z.ltb_spec (2 * 0) den); [reflexivity|lia].
Qed.

Lemma round_half_even_scale (p a den : Z) :
  0 < p -> 0 < den -> round_half_even (p * a) (p * den) = round_half_even a den.
Proof.
  intros Hp Hden. unfold round_half_even.
  rewrite Z.div_mul_cancel_l by lia. rewrite Z.mul_mod_distr_l by lia.
  pose proof (Z.mod_pos_bound a den Hden).
  set (r := a mod den) in *.
  destruct (Z.ltb_spec (2 * (p * r)) (p * den)) as [H1|H1];
    destruct (Z.ltb_spec (2 * r) den) as [H2|H2].
  - reflexivity.
  - exfalso. nia.
  - exfalso. nia.
  - destruct (Z.eqb_spec (2 * (p * r)) (p * den)) as [H3|H3];
      destruct (Z.eqb_spec (2 * r) den) as [H4|H4].
    + reflexivity.
    + exfalso. nia.
    + exfalso. nia.
    + reflexivity.
Qed.

(** The quotient of a byte count below [2^53] by [2^20] is computed without
    rounding. *)
Lemma quotient_mebibytes (n : Z) :
  0 < n < 2 ^ 53 ->
  quotient n (1024 * 1024)
  = {| mant := n * 2 ^ (52 - Z.log2 n); expo := Z.log2 n - 72 |}.
Proof.
  intros [Hpos Hlt].
  destruct (Z.log2_spec n Hpos) as [Hlo Hhi].
  pose proof (Z.log2_nonneg n) as Hk0.
  assert (Hk : Z.log2 n < 53) by (by apply Z.log2_lt_pow2).
  set (k := Z.log2 n) in *.
  assert (Hp : 0 < 2 ^ (52 - k)) by (apply Z.pow_pos_nonneg; lia).
  assert (E1 : 2 ^ (72 - k) = 2 ^ (52 - k) * 1048576).
  { replace (72 - k) with ((52 - k) + 20) by lia. rewrite Z.pow_add_r by lia. reflexivity. }
  assert (E2 : 2 ^ k * 2 ^ (52 - k) = 2 ^ 52).
  { rewrite <- Z.pow_add_r by lia. f_equal. lia. }
  assert (E3 : 2 ^ Z.succ k * 2 ^ (52 - k) = 2 ^ 53).
  { rewrite <- Z.pow_add_r by lia. f_equal. lia. }
  unfold quotient. destruct (Z.eqb_spec n 0); [lia|].
  rewrite (Z.abs_eq n) by lia. change (Z.abs (1024 * 1024)) with 1048576.
  rewrite (Z.sgn_pos n) by lia. change (Z.sgn (1024 * 1024)) with 1.
  unfold truediv_pos. change (Z.log2 1048576) with 20. fold k.
  replace (k - 20 - 52) with (k - 72) by lia.
  unfold scaled. destruct (Z.ltb_spec (k - 72) 0); [|lia].
  cbn [fst snd]. replace (- (k - 72)) with (72 - k) by lia.
  rewrite E1, Z.mul_assoc, Z.div_mul by lia.
  set (p := 2 ^ (52 - k)) in *.
  destruct (Z.ltb_spec (n * p) (2 ^ 52)); [nia|].
  destruct (Z.ltb_spec (k - 72) 0); [|lia]. cbn [fst snd].
  replace (- (k - 72)) with (72 - k) by lia.
  rewrite E1, Z.mul_assoc, round_half_even_exact by lia.
  destruct (Z.eqb_spec (n * p) (2 ^ 53)); [nia|].
  subst p k. cbn [mant expo]. f_equal. lia.
Qed.

(** X9: for an upload of fewer than [2^53] bytes, [size_mb] is exactly the
    number of bytes over [1024 * 1024], with no rounding; it is positive
    exactly when the upload is not empty. *)
Theorem size_mb_exact (G : list string) (L : PdfLibs) (uploaded_file : UploadedFile) :
  Z.of_nat (length (getvalue uploaded_file)) < 2 ^ 53 ->
  let size := size_mb (get_file_stats_in G L uploaded_file) in
  expo size <= 0
  /\ mant size * 2 ^ 20 = Z.of_nat (length (getvalue uploaded_file)) * 2 ^ (- expo size)
  /\ (positive size = true <-> 0 < Z.of_nat (length (getvalue uploaded_file))).
Proof.
  intros Hlt. cbv zeta. unfold get_file_stats_in. cbn [size_mb].
  set (n := Z.of_nat (length (getvalue uploaded_file))) in *.
  destruct (Z.eq_dec n 0) as [->|Hn].
  - change (quotient 0 (1024 * 1024)) with {| mant := 0; expo := 0 |}.
    unfold positive. cbn [mant expo].
    split; [lia|]. split; [reflexivity|]. split; [discriminate|lia].
  - assert (Hpos : 0 < n) by lia.
    rewrite quotient_mebibytes by lia. cbn [mant expo]. unfold positive. cbn [mant].
    destruct (Z.log2_spec n Hpos) as [Hlo Hhi].
    pose proof (Z.log2_nonneg n) as Hk0.
    assert (Hk : Z.log2 n < 53) by (by apply Z.log2_lt_pow2).
    set (k := Z.log2 n) in *.
    assert (Hp : 0 < 2 ^ (52 - k)) by (apply Z.pow_pos_nonneg; lia).
    split; [lia|]. split.
    + replace (- (k - 72)) with ((52 - k) + 20) by lia.
      rewrite Z.pow_add_r by lia. lia.
    + split; [lia|]. intros _. apply Z.ltb_lt. nia.
Qed.

Lemma size_mb_exact_witness :
  let size := size_mb (get_file_stats jane_doe_libs jane_doe_pdf) in
  expo size <= 0
  /\ mant size * 2 ^ 20 = Z.of_nat (length (getvalue jane_doe_pdf)) * 2 ^ (- expo size)
  /\ (positive size = true <-> 0 < Z.of_nat (length (getvalue jane_doe_pdf))).
Proof.
  apply (size_mb_exact module_globals jane_doe_libs jane_doe_pdf). vm_compute. reflexivity.
Defined.

(** X10: the "File Size" metric shows the number of bytes over
    [1024 * 1024] rounded once, half to even, to two decimals; any upload
    of fewer than 5243 bytes is shown as "0.00 MB". *)
Theorem file_size_label_rounds_once
    (G : list string) (L : PdfLibs) (uploaded_file : UploadedFile) :
  Z.of_nat (length (getvalue uploaded_file)) < 2 ^ 53 ->
  let n := Z.of_nat (length (getvalue uploaded_file)) in
  let hundredths := round_half_even (100 * n) (2 ^ 20) in
  file_size_label (get_file_stats_in G L uploaded_file)
  = str_Z (hundredths / 100) ++ 46%N :: zero_pad 2 (hundredths mod 100) ++ py " MB"
  /\ (n < 5243 -> file_size_label (get_file_stats_in G L uploaded_file) = py "0.00 MB").
Proof.
  intros Hlt. cbv zeta.
  set (n := Z.of_nat (length (getvalue uploaded_file))) in *.
  assert (Hlabel : file_size_label (get_file_stats_in G L uploaded_file)
                   = str_Z (round_half_even (100 * n) (2 ^ 20) / 100)
                     ++ 46%N :: zero_pad 2 (round_half_even (100 * n) (2 ^ 20) mod 100)
                     ++ py " MB").
  { unfold file_size_label, get_file_stats_in. cbn [size_mb]. fold n.
    destruct (Z.eq_dec n 0) as [->|Hn]; [reflexivity|].
    assert (Hpos : 0 < n) by lia.
    rewrite quotient_mebibytes by lia. unfold format_fixed. cbn [mant expo].
    pose proof (Z.log2_nonneg n) as Hk0.
    assert (Hk : Z.log2 n < 53) by (by apply Z.log2_lt_pow2).
    set (k := Z.log2 n) in *.
    assert (Hp : 0 < 2 ^ (52 - k)) by (apply Z.pow_pos_nonneg; lia).
    destruct (Z.ltb_spec (k - 72) 0); [|lia].
    destruct (Z.ltb_spec (n * 2 ^ (52 - k)) 0); [nia|].
    rewrite Z.abs_eq by nia.
    change (10 ^ Z.of_nat 2) with 100.
    replace (- (k - 72)) with ((52 - k) + 20) by lia.
    rewrite Z.pow_add_r by lia.
    replace (n * 2 ^ (52 - k) * 100) with (2 ^ (52 - k) * (100 * n)) by lia.
    rewrite round_half_even_scale by lia.
    cbn [app]. by rewrite <- app_assoc. }
  split; [exact Hlabel|].
  intros Hsmall. rewrite Hlabel.
  assert (Hn0 : 0 <= n) by lia.
  assert (Hr : round_half_even (100 * n) (2 ^ 20) = 0).
  { unfold round_half_even. change (2 ^ 20) with 1048576.
    rewrite Z.div_small, Z.mod_small by lia.
    destruct (Z.ltb_spec (2 * (100 * n)) 1048576); [reflexivity|lia]. }
  rewrite Hr. reflexivity.
Qed.

Lemma file_size_label_witness :
  file_size_label (get_file_stats jane_doe_libs jane_doe_pdf) = py "0.00 MB".
Proof.
  apply (file_size_label_rounds_once module_globals jane_doe_libs jane_doe_pdf);
    vm_compute; reflexivity.
Defined.

End FileSize.


(** ** The history *)

(** X11: "Delete This Analysis" removes the first entry that carries the
    timestamp of the entry clicked and keeps the others in order; nothing
    changes when no entry carries it.  When an earlier entry shares the
    timestamp, that one is removed and the entry clicked stays. *)
Theorem pop_timestamp_removes_first_match (ts : pystr) (history : list analysis) :
  (ts ∉ map timestamp history -> pop_timestamp ts history = history)
  /\ (ts ∈ map timestamp history ->
      exists before a after,
        history = before ++ a :: after
        /\ timestamp a = ts
        /\ (ts ∉ map timestamp before)
        /\ pop_timestamp ts history = before ++ after).
Proof.
  induction history as [|a rest [IHout IHin]]; split.
  - reflexivity.
  - intros H. by apply elem_of_nil in H.
  - cbn [map pop_timestamp]. intros [Hne Hrest]%not_elem_of_cons.
    destruct (decide (timestamp a = ts)); [congruence|]. by rewrite IHout.
  - cbn [map pop_timestamp]. intros Hin.
    destruct (decide (timestamp a = ts)) as [Heq|Hne].
    + exists [], a, rest. repeat split; [exact Heq|apply not_elem_of_nil].
    + apply elem_of_cons in Hin as [Heq|Hin]; [congruence|].
      destruct (IHin Hin) as (before & b & after & -> & Hb & Hbefore & ->).
      exists (a :: before), b, after. repeat split; [exact Hb|].
      cbn [map]. apply not_elem_of_cons. split; [congruence|exact Hbefore].
Qed.

(** X12: when no two entries of the history share a timestamp, deleting an
    entry of the history removes exactly that entry; the other fields of
    the session, the current analysis included, stay as they were. *)
Theorem delete_analysis_distinct_timestamps (clicked : analysis) (s : session) :
  NoDup (map timestamp (analysis_history s)) ->
  clicked ∈ analysis_history s ->
  (exists before after,
      analysis_history s = before ++ clicked :: after
      /\ analysis_history (delete_analysis clicked s) = before ++ after)
  /\ current_analysis (delete_analysis clicked s) = current_analysis s
  /\ resume_text (delete_analysis clicked s) = resume_text s
  /\ api_key (delete_analysis clicked s) = api_key s.
Proof.
  intros Hnodup Hin. split; [|done].
  cbn [delete_analysis analysis_history].
  apply list_elem_of_split in Hin as (before & after & Hsplit).
  exists before, after. split; [exact Hsplit|].
  rewrite Hsplit in *. clear Hsplit.
  induction before as [|b before IH]; cbn [app pop_timestamp].
  - destruct (decide (timestamp clicked = timestamp clicked)); [reflexivity|congruence].
  - cbn [app map] in Hnodup. apply NoDup_cons in Hnodup as [Hb Hnodup].
    destruct (decide (timestamp b = timestamp clicked)) as [Heq|_].
    + exfalso. apply Hb. rewrite Heq, map_app. apply elem_of_app. right. apply list_elem_of_here.
    + by rewrite IH.
Qed.

Lemma delete_analysis_witness :
  exists before after,
    three_scores = before ++ ats_entry (py "2024-05-01 10:05:00") 70 :: after
    /\ analysis_history
         (delete_analysis (ats_entry (py "2024-05-01 10:05:00") 70)
            {| analysis_history := three_scores; current_analysis := None;
               api_key := []; resume_text := [] |})
       = before ++ after.
Proof.
  apply (delete_analysis_distinct_timestamps (ats_entry (py "2024-05-01 10:05:00") 70)
           {| analysis_history := three_scores; current_analysis := None;
              api_key := []; resume_text := [] |}).
  - cbn [analysis_history]. apply (bool_decide_unpack (NoDup _)). vm_compute. reflexivity.
  - cbn [analysis_history]. unfold three_scores.
    apply list_elem_of_further, list_elem_of_here.
Defined.

Lemma score_key_recorded (analysis_type selected_model_name now uploaded_name job_desc : pystr)
    (r : result) :
  recorded (analysis_data analysis_type selected_model_name now uploaded_name job_desc r).
Proof. reflexivity. Qed.

Lemma pop_timestamp_Forall (P : analysis -> Prop) (ts : pystr) (history : list analysis) :
  Forall P history -> Forall P (pop_timestamp ts history).
Proof.
  induction 1 as [|a rest Ha Hrest IH]; simpl; [constructor|].
  destruct (decide (timestamp a = ts)); [exact Hrest|by constructor].
Qed.

(** X13: one analysis click stores at most one entry, at the end of the
    history, and makes it the current analysis; the earlier entries are
    kept as they were, and so are the cached resume text and the API key.
    When something is stored, it carries the analysis type, the upload's
    name and the first 100 characters of the job description. *)
Theorem run_analysis_appends
    (G : list string) (L : PdfLibs) (os : OS) (Groq : pystr -> outcome Client)
    (key selected_model_name model_key now job_desc : pystr)
    (uploaded_file : UploadedFile) (analysis_type : pystr) (fs : files) (s : session) :
  let s' := (run_analysis G L os Groq key selected_model_name model_key now job_desc
               uploaded_file analysis_type fs s).1.1 in
  resume_text s' = resume_text s /\ api_key s' = api_key s
  /\ (s' = s
      \/ exists data,
           analysis_history s' = analysis_history s ++ [data]
           /\ current_analysis s' = Some data
           /\ type data = analysis_type
           /\ timestamp data = now
           /\ file_name data = name uploaded_file
           /\ job_desc_preview data = take 100 job_desc ++ py "..."
           /\ result_truthy (result_of data) = true).
Proof.
  cbv zeta. unfold run_analysis.
  destruct (get_groq_client Groq key) as [[client|] shown]; cbn [fst snd]; [|by auto].
  unfold record_analysis.
  destruct (result_truthy _) eqn:Htruthy; [|by auto].
  cbn [resume_text api_key analysis_history current_analysis].
  split; [reflexivity|]. split; [reflexivity|]. right.
  eexists. repeat split. exact Htruthy.
Qed.

(** X14: the three actions that change the session keep the invariant that
    every entry of the history carries the score [main] sets for it: an
    "ats_score" entry whose result is a dict has the dict's overall score
    (0 when the key is missing), every other entry has no score. *)
Theorem history_entries_stay_recorded
    (G : list string) (L : PdfLibs) (os : OS) (Groq : pystr -> outcome Client)
    (key selected_model_name model_key now job_desc : pystr)
    (uploaded_file : UploadedFile) (analysis_type : pystr) (fs : files)
    (clicked : analysis) (s : session) :
  Forall recorded (analysis_history s) ->
  Forall recorded (analysis_history
    (run_analysis G L os Groq key selected_model_name model_key now job_desc
       uploaded_file analysis_type fs s).1.1)
  /\ Forall recorded (analysis_history (delete_analysis clicked s))
  /\ Forall recorded (analysis_history (load_analysis clicked s)).
Proof.
  intros Hrec. repeat split.
  - unfold run_analysis.
    destruct (get_groq_client Groq key) as [[client|] shown]; cbn [fst snd]; [|exact Hrec].
    unfold record_analysis. destruct (result_truthy _); [|exact Hrec].
    cbn [analysis_history]. apply Forall_app. split; [exact Hrec|].
    constructor; [apply score_key_recorded|constructor].
  - cbn [delete_analysis analysis_history].
    by apply pop_timestamp_Forall.
  - exact Hrec.
Qed.

Lemma history_entries_stay_recorded_witness :
  Forall recorded (analysis_history
    (delete_analysis (ats_entry (py "2024-05-01 10:05:00") 70)
       {| analysis_history := three_scores; current_analysis := None;
          api_key := []; resume_text := [] |})).
Proof.
  refine (proj1 (proj2 (history_entries_stay_recorded module_globals jane_doe_libs quiet_os
            (fun _ => Returns (canned malformed_reply)) [] [] [] [] [] jane_doe_pdf []
            ∅ (ats_entry (py "2024-05-01 10:05:00") 70)
            {| analysis_history := three_scores; current_analysis := None;
               api_key := []; resume_text := [] |} _))).
  cbn [analysis_history]. repeat constructor.
Defined.


(** X15: what one "ats_score" reply leaves in the history.  A reply whose
    span decodes to a non-empty dict is stored with the score
    [overall_score] of the dict, 0 when the key is missing; an empty dict
    is stored nowhere; a reply without a decodable span is stored as text,
    without a score, unless it is empty. *)
Theorem ats_reply_recorded
    (raw selected_model_name now job_desc : pystr) (uploaded_file : UploadedFile) (s : session) :
  let s' := record_analysis (py "ats_score") selected_model_name now job_desc uploaded_file
              (interpret (py "ats_score") raw).1 s in
  (forall span d,
      re_search raw = Some span -> json_loads span = Some (JObj d) ->
      match d with
      | [] => s' = s
      | _ :: _ =>
        exists data,
          analysis_history s' = analysis_history s ++ [data]
          /\ result_of data = Parsed (JObj d)
          /\ score data = Some (dict_get (py "overall_score") (JInt 0) d)
          /\ (dict_lookup (py "overall_score") d = None -> score data = Some (JInt 0))
      end)
  /\ (re_search raw = None \/ (exists span, re_search raw = Some span /\ json_loads span = None) ->
      match raw with
      | [] => s' = s
      | _ :: _ =>
        exists data,
          analysis_history s' = analysis_history s ++ [data]
          /\ result_of data = Text raw
          /\ score data = None
      end).
Proof.
  cbv zeta. rewrite interpret_ats_score. split.
  - intros span d -> ->. cbn [fst]. destruct d as [|kv d]; [reflexivity|].
    unfold record_analysis. cbn [result_truthy analysis_history].
    eexists. split; [reflexivity|]. split; [reflexivity|].
    cbn [score analysis_data result_of]. unfold score_key.
    destruct (decide (py "ats_score" = py "ats_score")); [|congruence].
    cbn [as_dict]. split; [reflexivity|]. intros Hnone. unfold dict_get. by rewrite Hnone.
  - intros Hbad.
    assert (Htext : (match re_search raw with
                     | Some span =>
                       match json_loads span with
                       | Some parsed => (Parsed parsed, [])
                       | None => (Text raw, [StWarning (py "Could not parse JSON: ")])
                       end
                     | None => (Text raw, [])
                     end).1 = Text raw).
    { destruct Hbad as [-> | (span & -> & ->)]; reflexivity. }
    rewrite Htext. destruct raw as [|c raw]; [reflexivity|].
    unfold record_analysis. cbn [result_truthy truthy analysis_history].
    eexists. split; [reflexivity|]. split; [reflexivity|].
    cbn [score analysis_data]. unfold score_key.
    by destruct (decide (py "ats_score" = py "ats_score")).
Qed.

(** ** Statistics *)

Section Statistics.
Local Open Scope Z_scope.

Lemma maximum_spec (x : Z) (l : list Z) :
  maximum x l ∈ x :: l /\ Forall (fun z => z <= maximum x l) (x :: l).
Proof.
  unfold maximum. revert x. induction l as [|y l IH]; intros x; cbn [foldl].
  - split; [apply list_elem_of_here|]. constructor; [lia|constructor].
  - destruct (IH (Z.max x y)) as [Hin Hall]. split.
    + apply elem_of_cons in Hin as [Heq|Hin].
      * rewrite Heq. destruct (Z.max_spec x y) as [[_ ->]|[_ ->]].
        -- apply list_elem_of_further, list_elem_of_here.
        -- apply list_elem_of_here.
      * by do 2 apply list_elem_of_further.
    + apply Forall_cons in Hall as [Hm Hall].
      constructor; [lia|]. constructor; [lia|exact Hall].
Qed.

Lemma minimum_spec (x : Z) (l : list Z) :
  minimum x l ∈ x :: l /\ Forall (fun z => minimum x l <= z) (x :: l).
Proof.
  unfold minimum. revert x. induction l as [|y l IH]; intros x; cbn [foldl].
  - split; [apply list_elem_of_here|]. constructor; [lia|constructor].
  - destruct (IH (Z.min x y)) as [Hin Hall]. split.
    + apply elem_of_cons in Hin as [Heq|Hin].
      * rewrite Heq. destruct (Z.min_spec x y) as [[_ ->]|[_ ->]].
        -- apply list_elem_of_here.
        -- apply list_elem_of_further, list_elem_of_here.
      * by do 2 apply list_elem_of_further.
    + apply Forall_cons in Hall as [Hm Hall].
      constructor; [lia|]. constructor; [lia|exact Hall].
Qed.

(** X16: when the history holds at least one "ats_score" entry with a dict
    result, and the scores are integers, the Visualize tab shows statistics:
    "Best Score" and "Lowest Score" are scores of the history and bound all
    of them, and "Total Analyses" counts the scored entries. *)
Theorem visualize_stats_bounds (history : list analysis) (ints : list Z) :
  int_scores (ats_scores history) = Some ints -> ints <> [] ->
  exists st,
    visualize_stats history = Some st
    /\ total st = length ints
    /\ max_score st ∈ ints /\ min_score st ∈ ints
    /\ Forall (fun z => min_score st <= z <= max_score st) ints.
Proof.
  intros Hints Hne. unfold visualize_stats. rewrite Hints.
  destruct ints as [|x rest]; [congruence|].
  eexists. split; [reflexivity|]. cbn [total max_score min_score].
  destruct (maximum_spec x rest) as [Hmax Hle].
  destruct (minimum_spec x rest) as [Hmin Hge].
  repeat split; try assumption.
  rewrite Forall_forall in *. intros z Hz. split; [by apply Hge|by apply Hle].
Qed.

Lemma visualize_stats_bounds_witness :
  exists st,
    visualize_stats three_scores_and_a_letter = Some st
    /\ total st = length [55; 70; 90]
    /\ max_score st ∈ [55; 70; 90] /\ min_score st ∈ [55; 70; 90]
    /\ Forall (fun z => min_score st <= z <= max_score st) [55; 70; 90].
Proof.
  apply (visualize_stats_bounds three_scores_and_a_letter [55; 70; 90]).
  - vm_compute. reflexivity.
  - discriminate.
Defined.

Lemma ats_scores_length (history : list analysis) :
  (length (ats_scores history) <= length history)%nat.
Proof.
  induction history as [|a rest IH]; simpl; [lia|].
  destruct (decide _); [destruct (as_dict _)|]; simpl; lia.
Qed.

Lemma int_scores_length (scores : list json) (ints : list Z) :
  int_scores scores = Some ints -> length ints = length scores.
Proof.
  revert ints. induction scores as [|v rest IH]; intros ints; simpl.
  - by intros [= <-].
  - destruct v; try discriminate.
    destruct (int_scores rest) as [l|]; [|discriminate].
    intros [= <-]. simpl. f_equal. by apply IH.
Qed.

(** X17: on a non-empty history recorded by [main], with integer scores,
    the sidebar's "Avg Score" is the sum of the scores the Visualize tab
    lists divided by the number of all entries of the history, scored or
    not, while the Visualize tab divides it by the number of scores. *)
Theorem sidebar_divides_by_all_entries (history : list analysis) (ints : list Z) :
  Forall recorded history -> history <> [] ->
  int_scores (ats_scores history) = Some ints ->
  sidebar_avg_score history = Some (quotient (sum ints) (Z.of_nat (length history)))
  /\ (length ints <= length history)%nat
  /\ (forall st, visualize_stats history = Some st ->
                 avg_score st = quotient (sum ints) (Z.of_nat (length ints))).
Proof.
  intros Hrec Hne Hints. repeat split.
  - unfold sidebar_avg_score. rewrite (sidebar_scores_recorded _ Hrec), Hints.
    destruct history as [|a rest]; [congruence|].
    do 2 f_equal. cbn [length]. lia.
  - rewrite (int_scores_length _ _ Hints). apply ats_scores_length.
  - intros st. unfold visualize_stats. rewrite Hints.
    destruct ints as [|x rest]; [discriminate|]. by intros [= <-].
Qed.

Lemma sidebar_divides_by_all_entries_witness :
  sidebar_avg_score three_scores_and_a_letter = Some (quotient (sum [55; 70; 90]) 4).
Proof.
  apply (sidebar_divides_by_all_entries three_scores_and_a_letter [55; 70; 90]).
  - repeat constructor.
  - discriminate.
  - vm_compute. reflexivity.
Defined.

End Statistics.


(** ** From the upload to the analysis *)

Lemma lstrip_length (s : pystr) : (length (lstrip s) <= length s)%nat.
Proof.
  induction s as [|c t IH]; simpl; [lia|].
  destruct (isspace c); simpl; lia.
Qed.

Lemma strip_length (s : pystr) : (length (strip s) <= length s)%nat.
Proof.
  unfold strip, rstrip. rewrite length_reverse.
  etransitivity; [apply lstrip_length|]. rewrite length_reverse. apply lstrip_length.
Qed.

(** What [extract_text_from_pdf] returns is never the empty string. *)
Lemma extracted_text_truthy
    (G : list string) (L : PdfLibs) (os : OS) (uploaded_file : UploadedFile) (fs : files) :
  truthy (extract_text_from_pdf_in G L os uploaded_file fs).1 = true.
Proof.
  unfold extract_text_from_pdf_in.
  destruct (NamedTemporaryFile os) as [tmp_path|e]; [|reflexivity].
  destruct (write_error os); [reflexivity|].
  destruct (unlink_error os); [reflexivity|]. cbn [fst].
  set (text := text3 _).
  destruct (Nat.ltb_spec 50 (length (strip text))) as [Hlong|_]; [|reflexivity].
  pose proof (strip_length text).
  destruct text as [|c t]; [simpl in *; lia|reflexivity].
Qed.

(** X18: the Analyze tab always works on the text the Upload tab cached:
    the result of [extract_text_from_pdf] is never empty, so the second
    extraction of lines 859 and 860 is never run, in any namespace. *)
Theorem analysis_uses_cached_text
    (G : list string) (L : PdfLibs) (os os' : OS) (uploaded_file : UploadedFile)
    (fs : files) (s : session) :
  let uploaded := upload_tab G L os uploaded_file fs s in
  analysis_resume_text G L os' uploaded_file uploaded.2 uploaded.1
  = ((extract_text_from_pdf_in G L os uploaded_file fs).1, uploaded.2).
Proof.
  cbv zeta. unfold analysis_resume_text, upload_tab. cbn [fst snd resume_text].
  by rewrite extracted_text_truthy.
Qed.

(** In the module as written, with file operations that succeed, the text
    cached for any upload is the warning. *)
Lemma module_upload_caches_warning
    (L : PdfLibs) (os : OS) (uploaded_file : UploadedFile) (fs : files) (s : session)
    (tmp_path : pystr) :
  NamedTemporaryFile os = Returns tmp_path -> write_error os = None -> unlink_error os = None ->
  upload_tab module_globals L os uploaded_file fs s
  = ({| analysis_history := analysis_history s; current_analysis := current_analysis s;
        api_key := api_key s; resume_text := no_text_warning |},
     delete tmp_path (<[tmp_path := getvalue uploaded_file]> (<[tmp_path := []]> fs))).
Proof.
  intros Htmp Hw Hu. unfold upload_tab, extract_text_from_pdf_in.
  rewrite Htmp, Hw, Hu, cascade_module. reflexivity.
Qed.

(** X19: in the module as written, the content of the uploaded file has no
    influence on an analysis: two uploads with the same name and different
    bytes lead, through the Upload tab and one analysis click, to the same
    session, the same files and the same messages, because the text sent to
    the model is the warning in both cases. *)
Theorem analysis_ignores_resume_content
    (L : PdfLibs) (os : OS) (Groq : pystr -> outcome Client)
    (key selected_model_name model_key now job_desc analysis_type tmp_path : pystr)
    (upload1 upload2 : UploadedFile) (fs : files) (s : session) :
  NamedTemporaryFile os = Returns tmp_path -> write_error os = None -> unlink_error os = None ->
  name upload1 = name upload2 ->
  let click upload :=
    let uploaded := upload_tab module_globals L os upload fs s in
    run_analysis module_globals L os Groq key selected_model_name model_key now job_desc
      upload analysis_type uploaded.2 uploaded.1 in
  resume_text (upload_tab module_globals L os upload1 fs s).1 = no_text_warning
  /\ click upload1 = click upload2.
Proof.
  intros Htmp Hw Hu Hname. cbv zeta.
  rewrite !(module_upload_caches_warning L os _ fs s tmp_path Htmp Hw Hu).
  split; [reflexivity|]. cbn [fst snd].
  rewrite !insert_insert_eq, !delete_insert_eq.
  unfold run_analysis, analysis_resume_text, record_analysis. cbn [resume_text].
  change (truthy no_text_warning) with true. cbn iota. cbn [fst snd].
  by rewrite Hname.
Qed.

Lemma analysis_ignores_resume_content_witness :
  resume_text (upload_tab module_globals jane_doe_libs quiet_os jane_doe_pdf ∅ initial_session).1
  = no_text_warning.
Proof.
  refine (proj1 (analysis_ignores_resume_content jane_doe_libs quiet_os
            (fun _ => Returns (canned malformed_reply)) [] [] [] [] [] (py "ats_score") tmp_pdf
            jane_doe_pdf {| name := name jane_doe_pdf; getvalue := [] |} ∅ initial_session
            _ _ _ _)); reflexivity.
Defined.

(** ** The preview *)

(** In the module as written an extraction ends in the warning or in an
    error message. *)
Lemma module_extraction_result
    (L : PdfLibs) (os : OS) (uploaded_file : UploadedFile) (fs : files) :
  (extract_text_from_pdf L os uploaded_file fs).1 = no_text_warning
  \/ exists e, (extract_text_from_pdf L os uploaded_file fs).1 = extraction_error e.
Proof.
  unfold extract_text_from_pdf, extract_text_from_pdf_in.
  destruct (NamedTemporaryFile os) as [tmp_path|e]; [|right; by exists e].
  destruct (write_error os) as [e|]; [right; by exists e|].
  rewrite cascade_module. cbn [text3].
  destruct (unlink_error os) as [e|]; [right; by exists e|].
  left. reflexivity.
Qed.

Lemma starts_with_app (needle rest : pystr) : starts_with needle (needle ++ rest) = true.
Proof.
  induction needle as [|c t IH]; [reflexivity|].
  simpl. by rewrite N.eqb_refl, IH.
Qed.

Lemma contains_app (needle before after : pystr) :
  contains needle (before ++ needle ++ after) = true.
Proof.
  induction before as [|c t IH].
  - simpl. destruct (needle ++ after) eqn:E; simpl; rewrite <- ?E;
      by rewrite starts_with_app.
  - cbn [app contains]. rewrite IH. apply orb_true_r.
Qed.

(** X20: the preview sniffs markers: any text that holds the warning sign
    or the word "Error" is shown as a warning, a resume that mentions
    "Error" included; so the warning and every error message of
    [extract_text_from_pdf] are shown as warnings, which in the module as
    written is every extraction. *)
Theorem preview_sniffs_markers :
  (forall before after : pystr,
      preview_of (before ++ py "Error" ++ after)
      = PreviewWarning (before ++ py "Error" ++ after))
  /\ (forall before after : pystr,
        preview_of (before ++ py "⚠️" ++ after)
        = PreviewWarning (before ++ py "⚠️" ++ after))
  /\ (forall (L : PdfLibs) (os : OS) (uploaded_file : UploadedFile) (fs : files),
        preview_of (extract_text_from_pdf L os uploaded_file fs).1
        = PreviewWarning (extract_text_from_pdf L os uploaded_file fs).1).
Proof.
  assert (Herror : forall before after : pystr,
             preview_of (before ++ py "Error" ++ after)
             = PreviewWarning (before ++ py "Error" ++ after)).
  { intros before after. unfold preview_of.
    by rewrite (contains_app (py "Error")), orb_true_r. }
  assert (Hsign : forall before after : pystr,
             preview_of (before ++ py "⚠️" ++ after)
             = PreviewWarning (before ++ py "⚠️" ++ after)).
  { intros before after. unfold preview_of. by rewrite (contains_app (py "⚠️")). }
  split; [exact Herror|]. split; [exact Hsign|].
  intros L os uploaded_file fs.
  destruct (module_extraction_result L os uploaded_file fs) as [-> | [e ->]].
  - assert (E : no_text_warning
                = [] ++ py "⚠️" ++ py " Could not extract text. Please ensure PDF has selectable text (not scanned image).")
      by (vm_compute; reflexivity).
    rewrite E. apply Hsign.
  - assert (E : py "Error extracting PDF: " = py "Error" ++ py " extracting PDF: ")
      by (vm_compute; reflexivity).
    unfold extraction_error. rewrite E, <- app_assoc.
    exact (Herror [] (py " extracting PDF: " ++ str_exn e)).
Qed.

(** ** The charts and the list of the History tab *)

(** X21: the two columns that [create_bar_chart] hands to the data frame
    always have the same length, at most 10, and the keywords shown are the
    first ones of the list. *)
Theorem bar_chart_columns_match {A} (keywords : list A) :
  length (bar_chart_frame keywords).1 = length (bar_chart_frame keywords).2
  /\ (length (bar_chart_frame keywords).1 <= 10)%nat
  /\ ((bar_chart_frame keywords).1 `prefix_of` keywords)
  /\ ((length keywords <= 10)%nat -> (bar_chart_frame keywords).1 = keywords).
Proof.
  unfold bar_chart_frame. cbn [fst snd].
  rewrite length_take, length_replicate.
  repeat split; [lia | apply prefix_take | intros H; by apply take_ge].
Qed.

(** X22: [create_radar_chart] closes the polygon: for a non-empty dict of
    [n] scores both [r] and [theta] have [n + 1] entries, the last one
    repeating the first; for an empty dict [values[0]] raises. *)
Theorem radar_trace_closed (scores_dict : list (pystr * json)) :
  match radar_trace scores_dict with
  | Some (r, theta) =>
    scores_dict <> []
    /\ length r = S (length scores_dict) /\ length theta = S (length scores_dict)
    /\ last r = head r /\ last theta = head theta
    /\ take (length scores_dict) r = map snd scores_dict
    /\ take (length scores_dict) theta = map fst scores_dict
  | None => scores_dict = []
  end.
Proof.
  destruct scores_dict as [|[k v] rest]; [reflexivity|].
  unfold radar_trace. cbn [map fst snd].
  split; [discriminate|].
  rewrite !length_app, !length_cons, !length_map. cbn [length].
  split; [lia|]. split; [lia|].
  rewrite !last_snoc. split; [reflexivity|]. split; [reflexivity|].
  split.
  - rewrite take_app_length'; [reflexivity|]. by rewrite length_cons, length_map.
  - rewrite take_app_length'; [reflexivity|]. by rewrite length_cons, length_map.
Qed.

(** X23: the History tab lists the entries newest first, and the number it
    gives the entry at position [idx] of that list is the position of the
    entry in the history, counted from 1. *)
Theorem history_number_is_position (history : list analysis) (idx : nat) (a : analysis) :
  reverse history !! idx = Some a ->
  (1 <= history_number history idx <= length history)%nat
  /\ history !! (history_number history idx - 1)%nat = Some a.
Proof.
  intros [Hlookup Hidx]%reverse_lookup_Some. unfold history_number.
  split; [lia|].
  replace (length history - idx - 1)%nat with (length history - S idx)%nat by lia.
  exact Hlookup.
Qed.

Lemma history_number_witness :
  (1 <= history_number three_scores 0 <= length three_scores)%nat
  /\ three_scores !! (history_number three_scores 0 - 1)%nat
     = Some (ats_entry (py "2024-05-01 10:10:00") 90).
Proof.
  apply (history_number_is_position three_scores 0 (ats_entry (py "2024-05-01 10:10:00") 90)).
  reflexivity.
Defined.
